(** * caddy_to_clf: Caddy JSON access logs to Combined Log Format

    A shallow embedding of [scripts/caddy_to_clf.py] and the properties of
    its converter [json_to_clf] and of its line-at-a-time driver.

    The script is a Python program, so the embedding works on Python
    values: the objects [json.loads] can return, the exceptions the
    operations of the script can raise, and the [try]/[except] of the
    converter.  Text is carried as its UTF-8 byte string.  What the script
    takes from the Python runtime and from the host (the JSON parser, the
    local time zone, the rounding of a float timestamp to seconds,
    [str.strip], the [repr] of floats and strings, and the padding of years
    below 1000) is gathered in a [Platform] record; every
    property is proved for all platforms, and [Sample.host] is one platform
    on which the model runs. *)

From Stdlib Require Import ZArith String Ascii List Bool Lia.
From Stdlib Require Import DecimalString SpecFloat.
Import ListNotations.

Local Open Scope string_scope.
Local Open Scope Z_scope.

Set Warnings "-register-all".

(** ** Exceptions and results *)

(** The exception classes that the statements of the script can raise.
    [JSONDecodeError] is a subclass of [ValueError]; [OtherError] stands for
    any class that is none of the ones named here and no subclass of
    [KeyError] or [ValueError] (a [RecursionError] of the parser, for
    instance). *)
Inductive exn : Type :=
| JSONDecodeError
| KeyError
| ValueError
| AttributeError
| TypeError
| IndexError
| OverflowError
| OSError
| OtherError.

(** The outcome of evaluating a Python expression: a value, or a raised
    exception that unwinds to the nearest handler. *)
Inductive res (A : Type) : Type :=
| Ret (a : A)
| Raise (e : exn).

Arguments Ret {A} a.
Arguments Raise {A} e.

Definition bind {A B : Type} (m : res A) (k : A -> res B) : res B :=
  match m with
  | Ret a => k a
  | Raise e => Raise e
  end.

Notation "x <- m ;; k" := (bind m (fun x => k))
  (at level 61, m at next level, right associativity).

(** ** Python values *)

(** The objects [json.loads] builds: [None], [bool], [int], [float], [str],
    [list] and [dict] with string keys.  A float is an IEEE 754 binary64
    datum.  A dict is kept as its items in insertion order; the binding of a
    key is the first item carrying it. *)
Inductive pyval : Type :=
| PNone
| PBool (b : bool)
| PInt (z : Z)
| PFloat (f : spec_float)
| PStr (s : string)
| PList (l : list pyval)
| PDict (d : list (string * pyval)).

Definition dq : string := String "034"%char EmptyString.

(** Text holding double quotes is written with an apostrophe for each. *)
Fixpoint jq (s : string) : string :=
  match s with
  | EmptyString => EmptyString
  | String c s' => String (if Ascii.eqb c "'" then "034"%char else c) (jq s')
  end.

Fixpoint dict_lookup (d : list (string * pyval)) (k : string) : option pyval :=
  match d with
  | [] => None
  | (k', v) :: d' => if String.eqb k' k then Some v else dict_lookup d' k
  end.

(** [dict.get(k, dflt)] *)
Definition dict_get (d : list (string * pyval)) (k : string) (dflt : pyval)
    : pyval :=
  match dict_lookup d k with
  | Some v => v
  | None => dflt
  end.

(** [o.get(k, dflt)]: only a dict has the method; on any other JSON value the
    attribute lookup raises [AttributeError]. *)
Definition py_get (o : pyval) (k : string) (dflt : pyval) : res pyval :=
  match o with
  | PDict d => Ret (dict_get d k dflt)
  | _ => Raise AttributeError
  end.

(** [v == s] for a string literal [s]: values of any other type compare
    unequal, nothing is raised. *)
Definition py_eq_str (v : pyval) (s : string) : bool :=
  match v with
  | PStr t => String.eqb t s
  | _ => false
  end.

Definition str_truthy (s : string) : bool :=
  match s with
  | EmptyString => false
  | String _ _ => true
  end.

(** Truth value of an object, as tested by [if] and [or]. *)
Definition py_truthy (v : pyval) : bool :=
  match v with
  | PNone => false
  | PBool b => b
  | PInt z => negb (z =? 0)
  | PFloat (S754_zero _) => false
  | PFloat _ => true
  | PStr s => str_truthy s
  | PList [] => false
  | PList (_ :: _) => true
  | PDict [] => false
  | PDict (_ :: _) => true
  end.

(** Length in bytes of the UTF-8 sequence opened by a leading byte. *)
Definition utf8_width (c : ascii) : nat :=
  let n := N.to_nat (N_of_ascii c) in
  if Nat.ltb n 192 then 1%nat
  else if Nat.ltb n 224 then 2%nat
  else if Nat.ltb n 240 then 3%nat
  else 4%nat.

(** [v[0]]: first item of a list, first character of a string; a dict is
    indexed by key and no JSON dict has the key [0]; the other types are not
    subscriptable. *)
Definition py_getitem0 (v : pyval) : res pyval :=
  match v with
  | PList (x :: _) => Ret x
  | PList [] => Raise IndexError
  | PStr (String c s) => Ret (PStr (substring 0 (utf8_width c) (String c s)))
  | PStr EmptyString => Raise IndexError
  | PDict _ => Raise KeyError
  | _ => Raise TypeError
  end.

(** ** Calendar time *)

(** The fields of a [datetime.datetime]; [tzinfo] is [None] on a naive
    object and the UTC offset in seconds on an aware one. *)
Record datetime : Type := mkdatetime {
  year : Z;
  month : Z;
  day : Z;
  hour : Z;
  minute : Z;
  second : Z;
  microsecond : Z;
  tzinfo : option Z
}.

(** A POSIX time as [datetime.fromtimestamp] accepts it: seconds since the
    epoch, as an integer or as a float. *)
Inductive posix : Type :=
| TInt (z : Z)
| TFloat (f : spec_float).

(** The broken-down time the host computes for a timestamp. *)
Record walltime : Type := mkwalltime {
  w_year : Z;
  w_month : Z;
  w_day : Z;
  w_hour : Z;
  w_minute : Z;
  w_second : Z;
  w_microsecond : Z
}.

Definition is_leap (y : Z) : bool :=
  (y mod 4 =? 0) && (negb (y mod 100 =? 0) || (y mod 400 =? 0)).

Definition days_in_month (y m : Z) : Z :=
  if m =? 2 then (if is_leap y then 29 else 28)
  else if (m =? 4) || (m =? 6) || (m =? 9) || (m =? 11) then 30
  else 31.

Definition between (lo x hi : Z) : bool := (lo <=? x) && (x <=? hi).

(** The argument check of the [datetime] constructor. *)
Definition valid_datetime (dt : datetime) : bool :=
  between 1 (year dt) 9999 && between 1 (month dt) 12 &&
  between 1 (day dt) (days_in_month (year dt) (month dt)) &&
  between 0 (hour dt) 23 && between 0 (minute dt) 59 &&
  between 0 (second dt) 59 && between 0 (microsecond dt) 999999.

(** The proleptic Gregorian ordinal of a date, 1 for 0001-01-01. *)
Definition days_before_year (y : Z) : Z :=
  let y' := y - 1 in y' * 365 + y' / 4 - y' / 100 + y' / 400.

Definition days_before_month (y m : Z) : Z :=
  nth (Z.to_nat (m - 1))
      [0; 31; 59; 90; 120; 151; 181; 212; 243; 273; 304; 334] 0 +
  (if (2 <? m) && is_leap y then 1 else 0).

Definition ymd_to_ord (y m d : Z) : Z :=
  days_before_year y + days_before_month y m + d.

(** Seconds since 0001-01-01 of a broken-down time; [ValueError] on a year
    outside 1 to 9999. *)
Definition utc_to_seconds (y mo d h mi s : Z) : res Z :=
  if between 1 y 9999
  then Ret (((ymd_to_ord y mo d * 24 + h) * 60 + mi) * 60 + s)
  else Raise ValueError.

Definition max_fold_seconds : Z := 24 * 3600.

(** ** The platform *)

Record Platform : Type := mkPlatform {
  (** [json.loads]: the parsed value, or the exception of the parser *)
  loads : string -> res pyval;
  (** [str.strip] *)
  strip : string -> string;
  (** the local broken-down time of a timestamp on the host; raises
      [ValueError] on NaN, [OverflowError] or [OSError] out of the range of
      the C library *)
  localtime : posix -> res walltime;
  (** the whole seconds [fromtimestamp] takes from a float timestamp
      (rounded half to even at the microsecond) before it asks for the
      local time *)
  float_seconds : spec_float -> Z;
  (** [repr] of a float *)
  repr_float : spec_float -> string;
  (** [repr] of a string *)
  repr_str : string -> string;
  (** whether [%Y] pads a year below 1000 with zeros to four digits; this
      is left to the C library (glibc does not pad) *)
  pads_year : bool
}.

(** ** Text of numbers *)

Definition str_of_Z (z : Z) : string := NilZero.string_of_int (Z.to_int z).

Definition pad2 (n : Z) : string :=
  if n <? 10 then "0" ++ str_of_Z n else str_of_Z n.

Definition pad4 (n : Z) : string :=
  if n <? 10 then "000" ++ str_of_Z n
  else if n <? 100 then "00" ++ str_of_Z n
  else if n <? 1000 then "0" ++ str_of_Z n
  else str_of_Z n.

(** ** strftime *)

Definition month_abbr : list string :=
  ["Jan"; "Feb"; "Mar"; "Apr"; "May"; "Jun";
   "Jul"; "Aug"; "Sep"; "Oct"; "Nov"; "Dec"].

(** [%z]: [+HHMM] or [-HHMM] (seconds appended when the offset has some),
    and the empty string on a naive object. *)
Definition utcoffset_str (tz : option Z) : string :=
  match tz with
  | None => EmptyString
  | Some off =>
      let a := Z.abs off in
      (if off <? 0 then "-" else "+") ++ pad2 (a / 3600) ++
      pad2 (a mod 3600 / 60) ++
      (if a mod 60 =? 0 then EmptyString else pad2 (a mod 60))
  end.

(** The text of the f-string of line 45 around its nine fields. *)
Definition clf_template
    (remote_ip time_str method uri proto status size referer user_agent
       : string) : string :=
  remote_ip ++ " - - [" ++ time_str ++ "] " ++
  dq ++ method ++ " " ++ uri ++ " " ++ proto ++ dq ++
  " " ++ status ++ " " ++ size ++ " " ++
  dq ++ referer ++ dq ++ " " ++ dq ++ user_agent ++ dq.

(** ** The converter *)

Section Converter.

Variable P : Platform.

(** The conversions the script uses, in the C locale; any other character
    after a percent sign is copied with it. *)
Definition directive (dt : datetime) (c : ascii) : string :=
  if Ascii.eqb c "d" then pad2 (day dt)
  else if Ascii.eqb c "b" then nth (Z.to_nat (month dt - 1)) month_abbr "???"
  else if Ascii.eqb c "Y" then
    (if pads_year P then pad4 (year dt) else str_of_Z (year dt))
  else if Ascii.eqb c "H" then pad2 (hour dt)
  else if Ascii.eqb c "M" then pad2 (minute dt)
  else if Ascii.eqb c "S" then pad2 (second dt)
  else if Ascii.eqb c "z" then utcoffset_str (tzinfo dt)
  else if Ascii.eqb c "%" then "%"
  else String "%" (String c EmptyString).

Fixpoint strftime (dt : datetime) (fmt : string) : string :=
  match fmt with
  | EmptyString => EmptyString
  | String c rest =>
      if Ascii.eqb c "%" then
        match rest with
        | EmptyString => "%"
        | String c' rest' => directive dt c' ++ strftime dt rest'
        end
      else String c (strftime dt rest)
  end.

(** [a or b] on strings. *)
Definition str_or (a b : string) : string :=
  if str_truthy a then a else b.

(** Line 31: the format with [%z], or else the one with a literal offset. *)
Definition time_str_of (dt : datetime) : string :=
  str_or (strftime dt "%d/%b/%Y:%H:%M:%S %z")
         (strftime dt "%d/%b/%Y:%H:%M:%S +0000").

(** [repr(v)] and [str(v)]; an f-string field [{v}] is [str(v)] for every
    type met here. *)
Fixpoint py_repr (v : pyval) : string :=
  match v with
  | PNone => "None"
  | PBool true => "True"
  | PBool false => "False"
  | PInt z => str_of_Z z
  | PFloat f => repr_float P f
  | PStr s => repr_str P s
  | PList l => "[" ++ String.concat ", " (map py_repr l) ++ "]"
  | PDict d =>
      "{" ++ String.concat ", "
               (map (fun kv => let '(k, x) := kv in
                               repr_str P k ++ ": " ++ py_repr x) d) ++ "}"
  end.

Definition py_str (v : pyval) : string :=
  match v with
  | PStr s => s
  | _ => py_repr v
  end.

(** The object [fromtimestamp] builds from the local time of the host when
    no [tz] is given: seconds above 59 (a leap second) are clamped and
    [tzinfo] is [None]. *)
Definition naive (w : walltime) : datetime :=
  {| year := w_year w; month := w_month w; day := w_day w;
     hour := w_hour w; minute := w_minute w;
     second := Z.min 59 (w_second w);
     microsecond := w_microsecond w; tzinfo := None |}.

(** The whole seconds of a timestamp. *)
Definition time_t_of (t : posix) : Z :=
  match t with
  | TInt z => z
  | TFloat f => float_seconds P f
  end.

(** The local time at [t] seconds of the epoch, in seconds since
    0001-01-01. *)
Definition local (t : Z) : res Z :=
  w <- localtime P (TInt t) ;;
  utc_to_seconds (w_year w) (w_month w) (w_day w)
                 (w_hour w) (w_minute w) (w_second w).

(** The detection of a repeated local time: the local time one day earlier
    is probed, and once more at the transition when there is one.  The
    result is the [fold] of the object, which no statement of the script
    reads; what matters here is that each step can raise. *)
Definition fold_probe (timet : Z) (dt : datetime) : res bool :=
  result_seconds <-
    utc_to_seconds (year dt) (month dt) (day dt)
                   (hour dt) (minute dt) (second dt) ;;
  probe_seconds <- local (timet - max_fold_seconds) ;;
  let transition := result_seconds - probe_seconds - max_fold_seconds in
  if transition <? 0 then
    probe_seconds <- local (timet + transition) ;;
    Ret (probe_seconds =? result_seconds)
  else Ret false.

(** After the probe the constructor checks the fields and raises
    [ValueError] on a value out of range. *)
Definition local_datetime (t : posix) : res datetime :=
  w <- localtime P t ;;
  let dt := naive w in
  fold <- fold_probe (time_t_of t) dt ;;
  if valid_datetime dt then Ret dt else Raise ValueError.

(** [datetime.fromtimestamp(v)]: an [int] (or a [bool], its subclass) and
    a [float] are accepted, any other type raises [TypeError]. *)
Definition fromtimestamp (v : pyval) : res datetime :=
  match v with
  | PInt z => local_datetime (TInt z)
  | PBool b => local_datetime (TInt (if b then 1 else 0))
  | PFloat f => local_datetime (TFloat f)
  | _ => Raise TypeError
  end.

(** The f-string of line 45: each field is the [str] of its value. *)
Definition clf_format
    (remote_ip : pyval) (time_str : string)
    (method uri proto status size referer user_agent : pyval) : string :=
  clf_template (py_str remote_ip) time_str (py_str method) (py_str uri)
               (py_str proto) (py_str status) (py_str size)
               (py_str referer) (py_str user_agent).

(** [headers.get(name, ['-'])[0] if headers.get(name) else '-'] *)
Definition first_header (headers : pyval) (name : string) : res pyval :=
  present <- py_get headers name PNone ;;
  if py_truthy present then
    values <- py_get headers name (PList [PStr "-"]) ;;
    py_getitem0 values
  else Ret (PStr "-").

(** The body of the [try] block; [None] is the early [return None]. *)
Definition json_to_clf_try (json_line : string) : res (option string) :=
  data <- loads P json_line ;;
  logger <- py_get data "logger" PNone ;;
  if negb (py_eq_str logger "http.log.access.log0") then Ret None else
  request <- py_get data "request" (PDict []) ;;
  remote_ip <- py_get request "remote_ip" (PStr "-") ;;
  let remote_ip :=
    if py_eq_str remote_ip "::1" then PStr "127.0.0.1" else remote_ip in
  timestamp <- py_get data "ts" (PInt 0) ;;
  dt <- fromtimestamp timestamp ;;
  let time_str := time_str_of dt in
  method <- py_get request "method" (PStr "-") ;;
  uri <- py_get request "uri" (PStr "-") ;;
  proto <- py_get request "proto" (PStr "-") ;;
  status <- py_get data "status" (PInt 0) ;;
  size <- py_get data "size" (PInt 0) ;;
  headers <- py_get request "headers" (PDict []) ;;
  user_agent <- first_header headers "User-Agent" ;;
  referer <- first_header headers "Referer" ;;
  let clf_line :=
    clf_format remote_ip time_str method uri proto status size
               referer user_agent in
  Ret (Some clf_line).

(** [except (json.JSONDecodeError, KeyError, ValueError)] *)
Definition handled (e : exn) : bool :=
  match e with
  | JSONDecodeError | KeyError | ValueError => true
  | _ => false
  end.

Definition json_to_clf (json_line : string) : res (option string) :=
  match json_to_clf_try json_line with
  | Ret r => Ret r
  | Raise e => if handled e then Ret None else Raise e
  end.

(** ** The driver *)

(** [if clf_line:] on the result of the converter. *)
Definition result_truthy (r : option string) : bool :=
  match r with
  | None => false
  | Some s => str_truthy s
  end.

(** What [print] writes for the result. *)
Definition print_text (r : option string) : string :=
  match r with
  | None => "None"
  | Some s => s
  end.

(** The loop over [sys.stdin]: the lines printed, and the exception that
    ended the process when one escaped the converter.  Writing to the
    standard output is taken to succeed. *)
Fixpoint main (stdin : list string) : list string * option exn :=
  match stdin with
  | [] => ([], None)
  | line :: rest =>
      match json_to_clf (strip P line) with
      | Raise e => ([], Some e)
      | Ret clf_line =>
          let '(printed, err) := main rest in
          if result_truthy clf_line
          then (print_text clf_line :: printed, err)
          else (printed, err)
      end
  end.

End Converter.


(** ** A host to run the model on

    Time zone UTC, a 64-bit C library, and the values [json.loads] returns
    for a handful of sample lines.  It instantiates the [Platform] for the
    examples; no property below depends on it. *)
Module Sample.

(** Days since 1970-01-01 to the proleptic Gregorian date. *)
Definition civil_from_days (days : Z) : Z * Z * Z :=
  let z := days + 719468 in
  let era := z / 146097 in
  let doe := z - era * 146097 in
  let yoe := (doe - doe / 1460 + doe / 36524 - doe / 146096) / 365 in
  let doy := doe - (365 * yoe + yoe / 4 - yoe / 100) in
  let mp := (5 * doy + 2) / 153 in
  let d := doy - (153 * mp + 2) / 5 + 1 in
  let m := if mp <? 10 then mp + 3 else mp - 9 in
  let y := yoe + era * 400 + (if m <=? 2 then 1 else 0) in
  (y, m, d).

Definition utc_walltime (sec usec : Z) : res walltime :=
  if negb (between (- 2 ^ 63) sec (2 ^ 63 - 1)) then Raise OverflowError else
  let '(y, m, d) := civil_from_days (sec / 86400) in
  let s := sec mod 86400 in
  if negb (between (- 2 ^ 31) (y - 1900) (2 ^ 31 - 1)) then Raise OSError else
  Ret {| w_year := y; w_month := m; w_day := d;
         w_hour := s / 3600; w_minute := s mod 3600 / 60;
         w_second := s mod 60; w_microsecond := usec |}.

(** Nearest integer, ties to even, of [n / d] for [d > 0]. *)
Definition round_half_even (n d : Z) : Z :=
  let q := n / d in
  let r := n mod d in
  if 2 * r <? d then q
  else if d <? 2 * r then q + 1
  else if Z.even q then q else q + 1.

(** Microseconds of a finite float [m * 2 ^ e], rounded half to even. *)
Definition float_usec (neg : bool) (m : positive) (e : Z) : Z :=
  let a :=
    if 0 <=? e then Z.pos m * 2 ^ e * 1000000
    else round_half_even (Z.pos m * 1000000) (2 ^ (- e)) in
  if neg then - a else a.

Definition utc_float_seconds (f : spec_float) : Z :=
  match f with
  | S754_finite neg m e => float_usec neg m e / 1000000
  | _ => 0
  end.

Definition utc_localtime (t : posix) : res walltime :=
  match t with
  | TInt z => utc_walltime z 0
  | TFloat (S754_zero _) => utc_walltime 0 0
  | TFloat S754_nan => Raise ValueError
  | TFloat (S754_infinity _) => Raise OverflowError
  | TFloat (S754_finite neg m e) =>
      let us := float_usec neg m e in
      utc_walltime (us / 1000000) (us mod 1000000)
  end.

Definition is_space (c : ascii) : bool :=
  let n := N_of_ascii c in
  ((9 <=? n) && (n <=? 13) || (28 <=? n) && (n <=? 32))%N.

Fixpoint lstrip (s : string) : string :=
  match s with
  | EmptyString => EmptyString
  | String c s' => if is_space c then lstrip s' else s
  end.

Fixpoint rstrip (s : string) : string :=
  match s with
  | EmptyString => EmptyString
  | String c s' =>
      match rstrip s' with
      | EmptyString => if is_space c then EmptyString else String c EmptyString
      | t => String c t
      end
  end.

(** [str.strip] on ASCII text. *)
Definition strip_ascii (s : string) : string := rstrip (lstrip s).

(** [repr] of a string of printable ASCII without quote or backslash. *)
Definition repr_plain (s : string) : string := "'" ++ s ++ "'".

Fixpoint zeros (n : nat) : string :=
  match n with
  | O => EmptyString
  | S n' => String "0" (zeros n')
  end.

Fixpoint drop_trailing_zeros (s : string) : string :=
  match s with
  | EmptyString => EmptyString
  | String c s' =>
      match drop_trailing_zeros s' with
      | EmptyString => if Ascii.eqb c "0" then EmptyString else String c EmptyString
      | t => String c t
      end
  end.

(** The exact decimal expansion of [m * 2 ^ e] in fixed notation: the
    [repr] of a float of magnitude between 1e-4 and 1e16 whose expansion
    has at most 15 significant digits. *)
Definition repr_finite (neg : bool) (m : positive) (e : Z) : string :=
  let sign := if neg then "-" else EmptyString in
  if 0 <=? e then sign ++ str_of_Z (Z.pos m * 2 ^ e) ++ ".0"
  else
    let k := - e in
    let frac := str_of_Z (Z.pos m mod 2 ^ k * 5 ^ k) in
    let digits :=
      drop_trailing_zeros
        (zeros (Z.to_nat k - String.length frac) ++ frac) in
    sign ++ str_of_Z (Z.pos m / 2 ^ k) ++ "." ++
    (if str_truthy digits then digits else "0").

Definition repr_float_fixed (f : spec_float) : string :=
  match f with
  | S754_zero false => "0.0"
  | S754_zero true => "-0.0"
  | S754_infinity false => "inf"
  | S754_infinity true => "-inf"
  | S754_nan => "nan"
  | S754_finite neg m e => repr_finite neg m e
  end.

Definition access : pyval := PStr "http.log.access.log0".

(** The concrete scenario of the specification. *)
Definition scenario_line : string :=
  jq ("{'logger':'http.log.access.log0','ts':1700000000,'status':200," ++
      "'size':512,'request':{'remote_ip':'::1','method':'GET'," ++
      "'uri':'/index.html','proto':'HTTP/1.1'," ++
      "'headers':{'User-Agent':['TestAgent/1.0']}}}").

Definition scenario_data : pyval :=
  PDict [("logger", access); ("ts", PInt 1700000000);
         ("status", PInt 200); ("size", PInt 512);
         ("request",
          PDict [("remote_ip", PStr "::1"); ("method", PStr "GET");
                 ("uri", PStr "/index.html"); ("proto", PStr "HTTP/1.1");
                 ("headers",
                  PDict [("User-Agent", PList [PStr "TestAgent/1.0"])])])].

(** A record with every field present, as Caddy writes it (the timestamp
    is the float 1700000000.5). *)
Definition full_line : string :=
  jq ("{'logger':'http.log.access.log0','ts':1700000000.5,'status':404," ++
      "'size':17,'request':{'remote_ip':'203.0.113.9','method':'POST'," ++
      "'uri':'/api','proto':'HTTP/2.0','headers':{" ++
      "'Referer':['https://example.org/','x']," ++
      "'User-Agent':['curl/8.0','y']}}}").

Definition full_data : pyval :=
  PDict [("logger", access);
         ("ts", PFloat (S754_finite false 7130316802097152 (-22)));
         ("status", PInt 404); ("size", PInt 17);
         ("request",
          PDict [("remote_ip", PStr "203.0.113.9"); ("method", PStr "POST");
                 ("uri", PStr "/api"); ("proto", PStr "HTTP/2.0");
                 ("headers",
                  PDict [("Referer", PList [PStr "https://example.org/"; PStr "x"]);
                         ("User-Agent", PList [PStr "curl/8.0"; PStr "y"])])])].

Definition bare_line : string := jq "{'logger':'http.log.access.log0'}".
Definition bare_data : pyval := PDict [("logger", access)].

Definition tls_line : string := jq "{'logger':'tls.handshake','status':200}".
Definition tls_data : pyval :=
  PDict [("logger", PStr "tls.handshake"); ("status", PInt 200)].

Definition odd_status_line : string :=
  jq "{'logger':'http.log.access.log0','status':'abc','size':[1,null]}".
Definition odd_status_data : pyval :=
  PDict [("logger", access); ("status", PStr "abc");
         ("size", PList [PInt 1; PNone])].

Definition empty_headers_line : string :=
  jq ("{'logger':'http.log.access.log0','request':{'headers':" ++
      "{'User-Agent':[],'Referer':['r']}}}").
Definition empty_headers_data : pyval :=
  PDict [("logger", access);
         ("request",
          PDict [("headers",
                  PDict [("User-Agent", PList []);
                         ("Referer", PList [PStr "r"])])])].

Definition array_line : string := "[]".
Definition array_data : pyval := PList [].

Definition bad_ts_line : string :=
  jq "{'logger':'http.log.access.log0','ts':'yesterday'}".
Definition bad_ts_data : pyval :=
  PDict [("logger", access); ("ts", PStr "yesterday")].

Definition garbage_line : string := "not json at all".

Definition newline : string := String "010"%char EmptyString.

(** What the host prints for the scenario and for the bare record. *)
Definition scenario_out : string :=
  jq ("127.0.0.1 - - [14/Nov/2023:22:13:20 ] 'GET /index.html HTTP/1.1'" ++
      " 200 512 '-' 'TestAgent/1.0'").

Definition full_out : string :=
  jq ("203.0.113.9 - - [14/Nov/2023:22:13:20 ] 'POST /api HTTP/2.0'" ++
      " 404 17 'https://example.org/' 'curl/8.0'").

Definition bare_out : string :=
  jq "- - - [01/Jan/1970:00:00:00 ] '- - -' 0 0 '-' '-'".

Definition samples : list (string * pyval) :=
  [(scenario_line, scenario_data); (full_line, full_data);
   (bare_line, bare_data); (tls_line, tls_data);
   (odd_status_line, odd_status_data);
   (empty_headers_line, empty_headers_data);
   (array_line, array_data); (bad_ts_line, bad_ts_data)].

(** [json.loads] on the sample lines; whatever is not a sample is taken
    for malformed. *)
Definition sample_loads (s : string) : res pyval :=
  match dict_lookup samples s with
  | Some v => Ret v
  | None => Raise JSONDecodeError
  end.

Definition host : Platform :=
  {| loads := sample_loads;
     strip := strip_ascii;
     localtime := utc_localtime;
     float_seconds := utc_float_seconds;
     repr_float := repr_float_fixed;
     repr_str := repr_plain;
     pads_year := false |}.

End Sample.


(** ** More sample lines

    Records with values of unexpected types, on the same host. *)
Module Edge.

Definition null_fields_line : string :=
  jq ("{'logger':'http.log.access.log0','status':null," ++
      "'request':{'method':null}}").
Definition null_fields_data : pyval :=
  PDict [("logger", Sample.access); ("status", PNone);
         ("request", PDict [("method", PNone)])].
Definition null_fields_out : string :=
  jq "- - - [01/Jan/1970:00:00:00 ] 'None - -' None 0 '-' '-'".

Definition string_header_line : string :=
  jq ("{'logger':'http.log.access.log0','request':{'headers':" ++
      "{'User-Agent':'curl/8.0','Referer':0}}}").
Definition string_header_data : pyval :=
  PDict [("logger", Sample.access);
         ("request",
          PDict [("headers",
                  PDict [("User-Agent", PStr "curl/8.0");
                         ("Referer", PInt 0)])])].
Definition string_header_out : string :=
  jq "- - - [01/Jan/1970:00:00:00 ] '- - -' 0 0 '-' 'c'".

Definition dict_header_line : string :=
  jq ("{'logger':'http.log.access.log0','request':{'headers':" ++
      "{'User-Agent':{'a':1}}}}").
Definition dict_header_data : pyval :=
  PDict [("logger", Sample.access);
         ("request",
          PDict [("headers",
                  PDict [("User-Agent", PDict [("a", PInt 1)])])])].

Definition dict_referer_line : string :=
  jq ("{'logger':'http.log.access.log0','request':{'headers':" ++
      "{'User-Agent':['a'],'Referer':{'x':'y'}}}}").
Definition dict_referer_data : pyval :=
  PDict [("logger", Sample.access);
         ("request",
          PDict [("headers",
                  PDict [("User-Agent", PList [PStr "a"]);
                         ("Referer", PDict [("x", PStr "y")])])])].

Definition number_header_line : string :=
  jq ("{'logger':'http.log.access.log0','request':{'headers':" ++
      "{'User-Agent':7}}}").
Definition number_header_data : pyval :=
  PDict [("logger", Sample.access);
         ("request", PDict [("headers", PDict [("User-Agent", PInt 7)])])].

Definition null_request_line : string :=
  jq "{'logger':'http.log.access.log0','request':null}".
Definition null_request_data : pyval :=
  PDict [("logger", Sample.access); ("request", PNone)].

Definition list_headers_line : string :=
  jq "{'logger':'http.log.access.log0','request':{'headers':[]}}".
Definition list_headers_data : pyval :=
  PDict [("logger", Sample.access);
         ("request", PDict [("headers", PList [])])].

Definition far_future_line : string :=
  jq "{'logger':'http.log.access.log0','ts':1000000000000}".
Definition far_future_data : pyval :=
  PDict [("logger", Sample.access); ("ts", PInt 1000000000000)].

Definition nan_ts_line : string :=
  jq "{'logger':'http.log.access.log0','ts':NaN}".
Definition nan_ts_data : pyval :=
  PDict [("logger", Sample.access); ("ts", PFloat S754_nan)].

Definition null_ts_line : string :=
  jq "{'logger':'http.log.access.log0','ts':null}".
Definition null_ts_data : pyval :=
  PDict [("logger", Sample.access); ("ts", PNone)].

Definition noisy_line : string :=
  jq ("{'level':'info','logger':'http.log.access.log0'," ++
      "'msg':'handled request','bytes_read':0,'request':{'host':'h'," ++
      "'headers':{'Accept':['*/*']}}}").
Definition noisy_data : pyval :=
  PDict [("level", PStr "info"); ("logger", Sample.access);
         ("msg", PStr "handled request"); ("bytes_read", PInt 0);
         ("request",
          PDict [("host", PStr "h");
                 ("headers", PDict [("Accept", PList [PStr "*/*"])])])].

(** [Sample.full_line] a quarter of a second earlier. *)
Definition quarter_line : string :=
  jq ("{'logger':'http.log.access.log0','ts':1700000000.25,'status':404," ++
      "'size':17,'request':{'remote_ip':'203.0.113.9','method':'POST'," ++
      "'uri':'/api','proto':'HTTP/2.0','headers':{" ++
      "'Referer':['https://example.org/','x']," ++
      "'User-Agent':['curl/8.0','y']}}}").
Definition quarter_data : pyval :=
  PDict [("logger", Sample.access);
         ("ts", PFloat (S754_finite false 7130316801048576 (-22)));
         ("status", PInt 404); ("size", PInt 17);
         ("request",
          PDict [("remote_ip", PStr "203.0.113.9"); ("method", PStr "POST");
                 ("uri", PStr "/api"); ("proto", PStr "HTTP/2.0");
                 ("headers",
                  PDict [("Referer", PList [PStr "https://example.org/"; PStr "x"]);
                         ("User-Agent", PList [PStr "curl/8.0"; PStr "y"])])])].

(** A record with some fields and without others. *)
Definition partial_line : string :=
  jq ("{'logger':'http.log.access.log0','size':5,'request':{" ++
      "'remote_ip':'10.0.0.1','uri':'/x','headers':{'Referer':['r']}}}").
Definition partial_data : pyval :=
  PDict [("logger", Sample.access); ("size", PInt 5);
         ("request",
          PDict [("remote_ip", PStr "10.0.0.1"); ("uri", PStr "/x");
                 ("headers", PDict [("Referer", PList [PStr "r"])])])].

(** The bare record with keys the converter does not read. *)
Definition tagged_line : string :=
  jq "{'level':'info','logger':'http.log.access.log0','msg':'m'}".
Definition tagged_data : pyval :=
  PDict [("level", PStr "info"); ("logger", Sample.access);
         ("msg", PStr "m")].

(** Two records whose [request] is not an object. *)
Definition text_request_line : string :=
  jq "{'logger':'http.log.access.log0','request':'GET /'}".
Definition text_request_data : pyval :=
  PDict [("logger", Sample.access); ("request", PStr "GET /")].

(** A timestamp in the first day of the year 1. *)
Definition first_day_line : string :=
  jq "{'logger':'http.log.access.log0','ts':-62135596700}".
Definition first_day_data : pyval :=
  PDict [("logger", Sample.access); ("ts", PInt (-62135596700))].

Definition plain_line : string :=
  jq "{'logger':'http.log.access.log0','request':{'headers':{}}}".
Definition plain_data : pyval :=
  PDict [("logger", Sample.access);
         ("request", PDict [("headers", PDict [])])].

Definition samples : list (string * pyval) :=
  [(null_fields_line, null_fields_data);
   (string_header_line, string_header_data);
   (dict_header_line, dict_header_data);
   (dict_referer_line, dict_referer_data);
   (number_header_line, number_header_data);
   (null_request_line, null_request_data);
   (list_headers_line, list_headers_data);
   (far_future_line, far_future_data);
   (nan_ts_line, nan_ts_data);
   (null_ts_line, null_ts_data);
   (noisy_line, noisy_data);
   (quarter_line, quarter_data);
   (partial_line, partial_data);
   (tagged_line, tagged_data);
   (text_request_line, text_request_data);
   (first_day_line, first_day_data);
   (plain_line, plain_data)].

Definition edge_loads (s : string) : res pyval :=
  match dict_lookup samples s with
  | Some v => Ret v
  | None => Sample.sample_loads s
  end.

Definition host : Platform :=
  {| loads := edge_loads;
     strip := Sample.strip_ascii;
     localtime := Sample.utc_localtime;
     float_seconds := Sample.utc_float_seconds;
     repr_float := Sample.repr_float_fixed;
     repr_str := Sample.repr_plain;
     pads_year := false |}.

End Edge.

(** The types [datetime.fromtimestamp] takes for a timestamp. *)
Definition is_number (v : pyval) : bool :=
  match v with
  | PInt _ | PBool _ | PFloat _ => true
  | _ => false
  end.

(** The types that can be indexed with [[0]]. *)
Definition is_subscriptable (v : pyval) : bool :=
  match v with
  | PStr _ | PList _ | PDict _ => true
  | _ => false
  end.



(** Two values answer the lookups of [keys] alike: two objects that agree
    on these keys, or two values that are not objects (on which [.get]
    raises alike). *)
Definition reads_agree (keys : list string) (v v' : pyval) : Prop :=
  match v, v' with
  | PDict a, PDict b =>
      forall k, In k keys -> dict_lookup b k = dict_lookup a k
  | PDict _, _ => False
  | _, PDict _ => False
  | _, _ => True
  end.

(** The value [v] read for the header [name]: [-] when the key is missing
    or its value fails the truth test, otherwise item 0 of the value. *)
Definition header_field (hdrs : list (string * pyval)) (name : string)
    (v : pyval) : Prop :=
  match dict_lookup hdrs name with
  | None => v = PStr "-"
  | Some x => if py_truthy x then py_getitem0 x = Ret v else v = PStr "-"
  end.

(** ** The conditions under which a line is converted *)

(** The value of [remote_ip] after the rewrite of lines 26-27. *)
Definition loopback_to_ipv4 (remote_ip : pyval) : pyval :=
  if py_eq_str remote_ip "::1" then PStr "127.0.0.1" else remote_ip.

(** [line] parses to the dict [d], which is an access record whose
    [request] is the dict [req] with the header dict [hdrs], whose timestamp
    is the local time [dt], and whose two headers evaluate to [ua] and
    [rf]. *)
Definition converts (P : Platform) (line : string)
    (d req hdrs : list (string * pyval)) (dt : datetime) (ua rf : pyval)
    : Prop :=
  loads P line = Ret (PDict d) /\
  py_eq_str (dict_get d "logger" PNone) "http.log.access.log0" = true /\
  dict_get d "request" (PDict []) = PDict req /\
  fromtimestamp P (dict_get d "ts" (PInt 0)) = Ret dt /\
  dict_get req "headers" (PDict []) = PDict hdrs /\
  first_header (PDict hdrs) "User-Agent" = Ret ua /\
  first_header (PDict hdrs) "Referer" = Ret rf.

(** The date and time of day as [%d/%b/%Y:%H:%M:%S] writes them. *)
Definition clf_date (P : Platform) (dt : datetime) : string :=
  pad2 (day dt) ++ "/" ++ nth (Z.to_nat (month dt - 1)) month_abbr "???" ++
  "/" ++ (if pads_year P then pad4 (year dt) else str_of_Z (year dt)) ++
  ":" ++ pad2 (hour dt) ++ ":" ++ pad2 (minute dt) ++ ":" ++
  pad2 (second dt).

(** The driver as the specification words it: a result is written when it
    is present. *)
Fixpoint main_present (P : Platform) (stdin : list string)
    : list string * option exn :=
  match stdin with
  | [] => ([], None)
  | line :: rest =>
      match json_to_clf P (strip P line) with
      | Raise e => ([], Some e)
      | Ret None => main_present P rest
      | Ret (Some s) =>
          let '(printed, err) := main_present P rest in (s :: printed, err)
      end
  end.

(** [f] holds on the [count] integers from [lo] on. *)
Definition all_from (f : Z -> bool) (lo : Z) (count : nat) : bool :=
  forallb (fun i => f (lo + Z.of_nat i)) (seq 0 count).

(** ** Results and binds *)

Lemma bind_ret_inv {A B : Type} (m : res A) (k : A -> res B) (b : B) :
  (x <- m ;; k x) = Ret b -> exists a, m = Ret a /\ k a = Ret b.
Proof.
  destruct m as [a | e]; simpl; intros H.
  - exists a. split; [reflexivity | exact H].
  - discriminate H.
Qed.

Lemma py_get_ret_inv (o : pyval) (k : string) (dflt v : pyval) :
  py_get o k dflt = Ret v -> exists d, o = PDict d /\ v = dict_get d k dflt.
Proof.
  destruct o; simpl; intros H; try discriminate H.
  inversion H; subst. eexists; split; reflexivity.
Qed.

Lemma py_eq_str_true (v : pyval) (s : string) :
  py_eq_str v s = true <-> v = PStr s.
Proof.
  split.
  - destruct v; simpl; intros H; try discriminate H.
    apply String.eqb_eq in H. now subst.
  - intros ->. simpl. apply String.eqb_refl.
Qed.

Lemma dict_get_found d k dflt v :
  dict_lookup d k = Some v -> dict_get d k dflt = v.
Proof. unfold dict_get. now intros ->. Qed.


(** ** Strings *)

Lemma append_assoc (a b c : string) : (a ++ b) ++ c = a ++ (b ++ c).
Proof. induction a as [| x a IH]; simpl; [reflexivity | now rewrite IH]. Qed.

Lemma append_empty_r (a : string) : a ++ EmptyString = a.
Proof. induction a as [| x a IH]; simpl; [reflexivity | now rewrite IH]. Qed.

Lemma str_truthy_append_r (a b : string) :
  str_truthy b = true -> str_truthy (a ++ b) = true.
Proof. destruct a; simpl; auto. Qed.

Lemma str_truthy_nonempty (s : string) :
  str_truthy s = true <-> s <> EmptyString.
Proof.
  destruct s; simpl; split; intros H.
  - discriminate H.
  - now elim H.
  - discriminate.
  - reflexivity.
Qed.

(** ** strftime on the two formats of the script *)

Lemma strftime_primary (P : Platform) (dt : datetime) :
  strftime P dt "%d/%b/%Y:%H:%M:%S %z" =
  clf_date P dt ++ " " ++ utcoffset_str (tzinfo dt).
Proof.
  unfold clf_date. cbn [strftime directive Ascii.eqb Bool.eqb].
  repeat rewrite append_assoc. cbn [append].
  now rewrite ?append_empty_r.
Qed.

Lemma strftime_fallback (P : Platform) (dt : datetime) :
  strftime P dt "%d/%b/%Y:%H:%M:%S +0000" = clf_date P dt ++ " +0000".
Proof.
  unfold clf_date. cbn [strftime directive Ascii.eqb Bool.eqb].
  repeat rewrite append_assoc. cbn [append].
  now rewrite ?append_empty_r.
Qed.

(** ** Width of the date fields *)

Lemma length_append (a b : string) :
  String.length (a ++ b) = (String.length a + String.length b)%nat.
Proof. induction a as [| c a IH]; simpl; [reflexivity | now rewrite IH]. Qed.

Lemma all_from_sound (f : Z -> bool) (lo : Z) (count : nat) :
  all_from f lo count = true ->
  forall n, lo <= n < lo + Z.of_nat count -> f n = true.
Proof.
  unfold all_from. intros H n Hn.
  rewrite forallb_forall in H.
  replace n with (lo + Z.of_nat (Z.to_nat (n - lo))) by lia.
  apply H, in_seq. lia.
Qed.

Lemma pad2_length (n : Z) :
  0 <= n <= 99 -> String.length (pad2 n) = 2%nat.
Proof.
  intros Hn. apply Nat.eqb_eq.
  apply (all_from_sound (fun n => Nat.eqb (String.length (pad2 n)) 2) 0 100);
    [vm_compute; reflexivity | lia].
Qed.

Lemma pad4_length (n : Z) :
  1 <= n <= 9999 -> String.length (pad4 n) = 4%nat.
Proof.
  intros Hn. apply Nat.eqb_eq.
  apply (all_from_sound (fun n => Nat.eqb (String.length (pad4 n)) 4) 1
           (Z.to_nat 9999));
    [vm_compute; reflexivity | lia].
Qed.

Lemma month_abbr_length (i : nat) :
  String.length (nth i month_abbr "???") = 3%nat.
Proof.
  unfold month_abbr.
  do 12 (destruct i as [| i]; [reflexivity |]). destruct i; reflexivity.
Qed.

Lemma between_true (lo x hi : Z) : between lo x hi = true <-> lo <= x <= hi.
Proof. unfold between. rewrite andb_true_iff, !Z.leb_le. reflexivity. Qed.

Lemma days_in_month_le (y m : Z) : days_in_month y m <= 31.
Proof.
  unfold days_in_month.
  repeat match goal with |- context [if ?c then _ else _] => destruct c end;
    lia.
Qed.

(** From the year 1000 on the date is twenty characters: two digits, three
    letters, four digits and three groups of two. *)
Lemma pad4_from_1000 (n : Z) : 1000 <= n -> pad4 n = str_of_Z n.
Proof.
  intros Hn. unfold pad4.
  destruct (Z.ltb_spec n 10); [lia |].
  destruct (Z.ltb_spec n 100); [lia |].
  destruct (Z.ltb_spec n 1000); [lia | reflexivity].
Qed.

Lemma clf_date_length (P : Platform) (dt : datetime) :
  valid_datetime dt = true -> 1000 <= year dt ->
  String.length (clf_date P dt) = 20%nat.
Proof.
  unfold valid_datetime. rewrite !andb_true_iff, !between_true.
  intros [[[[[[Hy Hm] Hd] Hh] Hmi] Hs] _] Hy'.
  pose proof (days_in_month_le (year dt) (month dt)).
  unfold clf_date. rewrite !length_append.
  replace (if pads_year P then pad4 (year dt) else str_of_Z (year dt))
    with (pad4 (year dt))
    by (destruct (pads_year P); [reflexivity | now apply pad4_from_1000]).
  rewrite month_abbr_length, pad4_length by lia.
  rewrite !pad2_length by lia. reflexivity.
Qed.

Lemma primary_truthy (P : Platform) (dt : datetime) :
  str_truthy (strftime P dt "%d/%b/%Y:%H:%M:%S %z") = true.
Proof.
  rewrite strftime_primary. apply str_truthy_append_r. reflexivity.
Qed.

Lemma time_str_of_primary (P : Platform) (dt : datetime) :
  time_str_of P dt = clf_date P dt ++ " " ++ utcoffset_str (tzinfo dt).
Proof.
  unfold time_str_of, str_or. rewrite primary_truthy.
  apply strftime_primary.
Qed.

(** ** fromtimestamp *)

Lemma local_datetime_naive (P : Platform) (t : posix) (dt : datetime) :
  local_datetime P t = Ret dt ->
  tzinfo dt = None /\ valid_datetime dt = true.
Proof.
  unfold local_datetime. intros H.
  apply bind_ret_inv in H. destruct H as [w [_ H]].
  apply bind_ret_inv in H. destruct H as [fold [_ H]].
  destruct (valid_datetime (naive w)) eqn:V; [| discriminate H].
  inversion H; subst. split; [reflexivity | exact V].
Qed.

Lemma fromtimestamp_naive (P : Platform) (v : pyval) (dt : datetime) :
  fromtimestamp P v = Ret dt ->
  tzinfo dt = None /\ valid_datetime dt = true.
Proof.
  destruct v; simpl; intros H; try discriminate H;
    eapply local_datetime_naive; exact H.
Qed.

(** ** The two header fields *)



Lemma first_header_first hdrs name x xs :
  dict_lookup hdrs name = Some (PList (x :: xs)) ->
  first_header (PDict hdrs) name = Ret x.
Proof.
  intros H. unfold first_header. simpl.
  rewrite (dict_get_found _ _ _ _ H). simpl.
  rewrite (dict_get_found _ _ _ _ H). reflexivity.
Qed.

(** ** When and what the converter returns *)

Lemma json_to_clf_some (P : Platform) (line out : string) :
  json_to_clf P line = Ret (Some out) <->
  json_to_clf_try P line = Ret (Some out).
Proof.
  unfold json_to_clf.
  destruct (json_to_clf_try P line) as [r | e].
  - reflexivity.
  - split; intros H; [| discriminate H].
    destruct (handled e); discriminate H.
Qed.

Lemma json_to_clf_emits (P : Platform) (line out : string) :
  json_to_clf P line = Ret (Some out) <->
  exists d req hdrs dt ua rf,
    converts P line d req hdrs dt ua rf /\
    out = clf_format P
            (loopback_to_ipv4 (dict_get req "remote_ip" (PStr "-")))
            (time_str_of P dt)
            (dict_get req "method" (PStr "-"))
            (dict_get req "uri" (PStr "-"))
            (dict_get req "proto" (PStr "-"))
            (dict_get d "status" (PInt 0))
            (dict_get d "size" (PInt 0))
            rf ua.
Proof.
  rewrite json_to_clf_some. unfold json_to_clf_try, converts. split.
  - intros H.
    apply bind_ret_inv in H. destruct H as [data [Hload H]].
    apply bind_ret_inv in H. destruct H as [logger [Hlog H]].
    apply py_get_ret_inv in Hlog. destruct Hlog as [d [-> ->]].
    destruct (py_eq_str (dict_get d "logger" PNone) "http.log.access.log0")
      eqn:Hacc; simpl in H; [| discriminate H].
    remember (dict_get d "request" (PDict [])) as request eqn:Hreq.
    destruct request as [ | | | | | | req]; simpl in H; try discriminate H.
    apply bind_ret_inv in H. destruct H as [dt [Hdt H]].
    remember (dict_get req "headers" (PDict [])) as headers eqn:Hhdr.
    destruct headers as [ | | | | | | hdrs]; simpl in H; try discriminate H.
    apply bind_ret_inv in H. destruct H as [ua [Hua H]].
    apply bind_ret_inv in H. destruct H as [rf [Hrf H]].
    inversion H; subst out.
    exists d, req, hdrs, dt, ua, rf.
    repeat split; auto.
  - intros (d & req & hdrs & dt & ua & rf &
            (Hload & Hacc & Hreq & Hdt & Hhdr & Hua & Hrf) & ->).
    rewrite Hload. simpl. rewrite Hacc. simpl.
    rewrite Hreq. simpl. rewrite Hdt. simpl.
    rewrite Hhdr. simpl bind at 1.
    rewrite Hua. simpl bind at 1. rewrite Hrf. reflexivity.
Qed.

Lemma append_inj_l (a x y : string) : a ++ x = a ++ y -> x = y.
Proof.
  induction a as [| c a IH]; simpl; intros H; [exact H |].
  apply IH. now inversion H.
Qed.

Lemma not_access_logger (d : list (string * pyval)) :
  dict_lookup d "logger" <> Some (PStr "http.log.access.log0") ->
  py_eq_str (dict_get d "logger" PNone) "http.log.access.log0" = false.
Proof.
  intros H. destruct (py_eq_str _ _) eqn:E; [| reflexivity].
  apply py_eq_str_true in E. unfold dict_get in E.
  destruct (dict_lookup d "logger") as [v |]; [| discriminate E].
  subst v. now elim H.
Qed.

(** ** What the handler absorbs and what escapes *)

Lemma json_to_clf_raises (P : Platform) (line : string) (e : exn) :
  json_to_clf P line = Raise e <->
  json_to_clf_try P line = Raise e /\ handled e = false.
Proof.
  unfold json_to_clf.
  destruct (json_to_clf_try P line) as [r | e'].
  - split; [discriminate | intros [H _]; discriminate H].
  - destruct (handled e') eqn:Hh; split.
    + discriminate.
    + intros [H Hf]. inversion H; subst. congruence.
    + intros H. inversion H; subst. split; [reflexivity | exact Hh].
    + intros [H _]. exact H.
Qed.

Lemma handled_exception_skipped (P : Platform) (line : string) (e : exn) :
  json_to_clf_try P line = Raise e -> handled e = true ->
  json_to_clf P line = Ret None.
Proof. unfold json_to_clf. now intros -> ->. Qed.

(** A line the parser rejects is skipped. *)
Lemma malformed_json_skipped (P : Platform) (line : string) :
  loads P line = Raise JSONDecodeError -> json_to_clf P line = Ret None.
Proof.
  intros H. apply (handled_exception_skipped P line JSONDecodeError).
  - unfold json_to_clf_try. now rewrite H.
  - reflexivity.
Qed.

(** A local time in a year outside 1 to 9999 raises [ValueError] before
    anything is probed. *)
Lemma local_datetime_year_out_of_range (P : Platform) (t : posix)
    (w : walltime) :
  localtime P t = Ret w -> ~ 1 <= w_year w <= 9999 ->
  local_datetime P t = Raise ValueError.
Proof.
  intros Hw Hy. unfold local_datetime. rewrite Hw. cbn [bind].
  unfold fold_probe, utc_to_seconds.
  destruct (between 1 (year (naive w)) 9999) eqn:B; [| reflexivity].
  apply between_true in B. now elim Hy.
Qed.

(** A timestamp the host places outside the years 1 to 9999 is skipped. *)
Lemma out_of_range_year_skipped (P : Platform) (line : string)
    (d req : list (string * pyval)) (z : Z) (w : walltime) :
  loads P line = Ret (PDict d) ->
  dict_lookup d "logger" = Some (PStr "http.log.access.log0") ->
  dict_get d "request" (PDict []) = PDict req ->
  dict_get d "ts" (PInt 0) = PInt z ->
  localtime P (TInt z) = Ret w ->
  ~ 1 <= w_year w <= 9999 ->
  json_to_clf P line = Ret None.
Proof.
  intros Hload Hlog Hreq Hts Hw Hbad.
  apply (handled_exception_skipped P line ValueError); [| reflexivity].
  unfold json_to_clf_try. rewrite Hload. simpl.
  rewrite (dict_get_found _ _ _ _ Hlog). simpl.
  rewrite Hreq. simpl. rewrite Hts. simpl.
  now rewrite (local_datetime_year_out_of_range P _ w Hw Hbad).
Qed.

(** A timestamp that is a string, a list, an object or [null] raises
    [TypeError], which leaves the converter. *)
Lemma non_numeric_ts_escapes (P : Platform) (line : string)
    (d req : list (string * pyval)) (tsv : pyval) :
  loads P line = Ret (PDict d) ->
  dict_lookup d "logger" = Some (PStr "http.log.access.log0") ->
  dict_get d "request" (PDict []) = PDict req ->
  dict_lookup d "ts" = Some tsv ->
  fromtimestamp P tsv = Raise TypeError ->
  json_to_clf P line = Raise TypeError.
Proof.
  intros Hload Hlog Hreq Hts Hty.
  apply json_to_clf_raises. split; [| reflexivity].
  unfold json_to_clf_try. rewrite Hload. simpl.
  rewrite (dict_get_found _ _ _ _ Hlog). simpl.
  rewrite Hreq. simpl.
  rewrite (dict_get_found _ _ _ _ Hts), Hty. reflexivity.
Qed.

(** ** The model on the sample host *)

Example scenario_converts :
  json_to_clf Sample.host Sample.scenario_line =
    Ret (Some Sample.scenario_out).
Proof. reflexivity. Qed.

Example float_timestamp_converts :
  json_to_clf Sample.host Sample.full_line = Ret (Some Sample.full_out).
Proof. reflexivity. Qed.

Example bare_record_converts :
  json_to_clf Sample.host Sample.bare_line = Ret (Some Sample.bare_out).
Proof. reflexivity. Qed.

Example empty_header_list_defaults :
  json_to_clf Sample.host Sample.empty_headers_line =
    Ret (Some (jq "- - - [01/Jan/1970:00:00:00 ] '- - -' 0 0 'r' '-'")).
Proof. reflexivity. Qed.

Example garbage_skipped :
  json_to_clf Sample.host Sample.garbage_line = Ret None.
Proof. reflexivity. Qed.

Example handshake_skipped :
  json_to_clf Sample.host Sample.tls_line = Ret None.
Proof. reflexivity. Qed.

Example string_timestamp_escapes :
  json_to_clf Sample.host Sample.bad_ts_line = Raise TypeError.
Proof. reflexivity. Qed.

Example stream_survives_garbage :
  main Sample.host
    [Sample.scenario_line ++ Sample.newline; Sample.garbage_line;
     Sample.tls_line; "  " ++ Sample.bare_line ++ Sample.newline;
     Sample.full_line] =
  ([Sample.scenario_out; Sample.bare_out; Sample.full_out], None).
Proof. reflexivity. Qed.

Example stream_stops_at_array :
  main Sample.host
    [Sample.scenario_line; Sample.array_line; Sample.full_line] =
  ([Sample.scenario_out], Some AttributeError).
Proof. reflexivity. Qed.

(** The probe of the local time one day earlier: a timestamp in the first
    local day of the year 1 is skipped, the probe raising [ValueError] on
    the year 0. *)
Lemma probe_before_year_one_skipped (P : Platform) (line : string)
    (d req : list (string * pyval)) (z : Z) (w w' : walltime) :
  loads P line = Ret (PDict d) ->
  dict_lookup d "logger" = Some (PStr "http.log.access.log0") ->
  dict_get d "request" (PDict []) = PDict req ->
  dict_get d "ts" (PInt 0) = PInt z ->
  localtime P (TInt z) = Ret w ->
  1 <= w_year w <= 9999 ->
  localtime P (TInt (z - max_fold_seconds)) = Ret w' ->
  ~ 1 <= w_year w' <= 9999 ->
  json_to_clf P line = Ret None.
Proof.
  intros Hload Hlog Hreq Hts Hw Hy Hw' Hy'.
  apply (handled_exception_skipped P line ValueError); [| reflexivity].
  unfold json_to_clf_try. rewrite Hload. simpl.
  rewrite (dict_get_found _ _ _ _ Hlog). simpl.
  rewrite Hreq. simpl. rewrite Hts. simpl.
  unfold local_datetime. rewrite Hw. cbn [bind].
  unfold fold_probe, utc_to_seconds at 1. cbn [year naive].
  destruct (between 1 (w_year w) 9999) eqn:B;
    [| apply not_true_iff_false in B; rewrite between_true in B; now elim B].
  cbn [bind time_t_of]. unfold local. rewrite Hw'. cbn [bind].
  unfold utc_to_seconds.
  destruct (between 1 (w_year w') 9999) eqn:B'; [| reflexivity].
  apply between_true in B'. now elim Hy'.
Qed.

Example first_day_of_year_one_skipped :
  json_to_clf Edge.host Edge.first_day_line = Ret None.
Proof. vm_compute. reflexivity. Qed.

(** ** The claims *)

(** C1.  What the code emits between the brackets: for every line that is
    converted, the timestamp is the local date and time of the record's
    [ts] (0 when the key is missing) as [DD/Mon/YYYY:HH:MM:SS], then one
    space, then the closing bracket.  [fromtimestamp] returns a naive
    object, [%z] is empty on it, so no UTC offset is written, and the
    [+0000] of the second format is not written either.  From the year
    1000 on the date itself has the twenty characters of
    [DD/Mon/YYYY:HH:MM:SS]. *)
Theorem timestamp_lacks_offset (P : Platform) (line out : string) :
  json_to_clf P line = Ret (Some out) ->
  exists d dt ip m u p st sz rf ua,
    loads P line = Ret (PDict d) /\
    fromtimestamp P (dict_get d "ts" (PInt 0)) = Ret dt /\
    tzinfo dt = None /\
    (1000 <= year dt -> String.length (clf_date P dt) = 20%nat) /\
    out = clf_template ip (clf_date P dt ++ " ") m u p st sz rf ua.
Proof.
  intros H. apply json_to_clf_emits in H.
  destruct H as (d & req & hdrs & dt & ua & rf & C & ->).
  destruct C as (Hload & _ & _ & Hdt & _).
  destruct (fromtimestamp_naive _ _ _ Hdt) as [Hnaive Hvalid].
  exists d, dt. do 8 eexists.
  split; [exact Hload |]. split; [exact Hdt |]. split; [exact Hnaive |].
  split; [exact (clf_date_length P dt Hvalid) |].
  unfold clf_format. rewrite time_str_of_primary, Hnaive. reflexivity.
Qed.

Lemma timestamp_lacks_offset_witness :
  json_to_clf Sample.host Sample.scenario_line = Ret (Some Sample.scenario_out)
  /\ exists d dt ip m u p st sz rf ua,
       loads Sample.host Sample.scenario_line = Ret (PDict d) /\
       fromtimestamp Sample.host (dict_get d "ts" (PInt 0)) = Ret dt /\
       tzinfo dt = None /\
       (1000 <= year dt ->
        String.length (clf_date Sample.host dt) = 20%nat) /\
       Sample.scenario_out =
         clf_template ip (clf_date Sample.host dt ++ " ") m u p st sz rf ua.
Proof.
  split; [reflexivity |].
  apply (timestamp_lacks_offset Sample.host Sample.scenario_line).
  reflexivity.
Defined.

(** C2.  What the code does on a line whose JSON value is not an object
    (an array, a number, a string, [null]): [data.get] raises
    [AttributeError], the [except] clause names only [JSONDecodeError],
    [KeyError] and [ValueError], so the exception leaves the converter and
    ends the loop of the driver: nothing is printed for the line and the
    lines after it are not read. *)
Theorem non_object_line_escapes
    (P : Platform) (raw : string) (rest : list string) (v : pyval) :
  loads P (strip P raw) = Ret v ->
  (forall d, v <> PDict d) ->
  json_to_clf P (strip P raw) = Raise AttributeError /\
  main P (raw :: rest) = ([], Some AttributeError).
Proof.
  intros Hload Hv.
  assert (E : json_to_clf P (strip P raw) = Raise AttributeError).
  { unfold json_to_clf, json_to_clf_try. rewrite Hload.
    destruct v; try reflexivity. now elim (Hv d). }
  split; [exact E |]. simpl. rewrite E. reflexivity.
Qed.

Lemma non_object_line_escapes_witness :
  json_to_clf Sample.host (strip Sample.host Sample.array_line) =
    Raise AttributeError /\
  main Sample.host [Sample.array_line; Sample.scenario_line] =
    ([], Some AttributeError).
Proof.
  apply (non_object_line_escapes Sample.host Sample.array_line
           [Sample.scenario_line] Sample.array_data).
  - reflexivity.
  - intros d. discriminate.
Defined.

(** C3.  A line that parses to an object whose [logger] is not the string
    [http.log.access.log0] (another string, a value of another type, or no
    [logger] key at all) makes the converter return [None], whatever else
    the object holds, and the driver prints nothing for it. *)
Theorem non_access_record_skipped
    (P : Platform) (line : string) (d : list (string * pyval)) :
  loads P line = Ret (PDict d) ->
  dict_lookup d "logger" <> Some (PStr "http.log.access.log0") ->
  json_to_clf P line = Ret None /\
  forall raw, strip P raw = line -> main P [raw] = ([], None).
Proof.
  intros Hload Hlog.
  assert (E : json_to_clf P line = Ret None).
  { unfold json_to_clf, json_to_clf_try. rewrite Hload. simpl.
    rewrite (not_access_logger d Hlog). reflexivity. }
  split; [exact E |].
  intros raw <-. simpl. rewrite E. reflexivity.
Qed.

Lemma non_access_record_skipped_witness :
  json_to_clf Sample.host Sample.tls_line = Ret None /\
  forall raw, strip Sample.host raw = Sample.tls_line ->
              main Sample.host [raw] = ([], None).
Proof.
  apply (non_access_record_skipped Sample.host Sample.tls_line
           [("logger", PStr "tls.handshake"); ("status", PInt 200)]).
  - reflexivity.
  - simpl. discriminate.
Defined.

(** C4.  A line that parses to an access record with every field present
    (strings for [remote_ip], [method], [uri] and [proto], integers for
    [status] and [size], a timestamp the host can convert, a non-empty list
    of strings under each of the two headers) is converted to exactly
    [REMOTE_IP - - [TIME] "METHOD URI PROTO" STATUS SIZE "REFERER"
    "USER_AGENT"], every value at its own place.  The record of the concrete
    scenario yields [127.0.0.1 - - [TIME] "GET /index.html HTTP/1.1" 200 512
    "-" "TestAgent/1.0"]. *)
Theorem full_record_line :
  (forall (P : Platform) (line : string) (d req hdrs : list (string * pyval))
          (tsv : pyval) (dt : datetime) (ip m u p rf ua : string)
          (st sz : Z) (rfs uas : list pyval),
     loads P line = Ret (PDict d) ->
     dict_lookup d "logger" = Some (PStr "http.log.access.log0") ->
     dict_lookup d "ts" = Some tsv ->
     fromtimestamp P tsv = Ret dt ->
     dict_lookup d "status" = Some (PInt st) ->
     dict_lookup d "size" = Some (PInt sz) ->
     dict_lookup d "request" = Some (PDict req) ->
     dict_lookup req "remote_ip" = Some (PStr ip) ->
     dict_lookup req "method" = Some (PStr m) ->
     dict_lookup req "uri" = Some (PStr u) ->
     dict_lookup req "proto" = Some (PStr p) ->
     dict_lookup req "headers" = Some (PDict hdrs) ->
     dict_lookup hdrs "Referer" = Some (PList (PStr rf :: rfs)) ->
     dict_lookup hdrs "User-Agent" = Some (PList (PStr ua :: uas)) ->
     json_to_clf P line =
       Ret (Some
         ((if String.eqb ip "::1" then "127.0.0.1" else ip) ++
          " - - [" ++ time_str_of P dt ++ "] " ++
          dq ++ m ++ " " ++ u ++ " " ++ p ++ dq ++ " " ++
          str_of_Z st ++ " " ++ str_of_Z sz ++ " " ++
          dq ++ rf ++ dq ++ " " ++ dq ++ ua ++ dq))) /\
  (forall (P : Platform) (line : string) (dt : datetime),
     loads P line = Ret Sample.scenario_data ->
     fromtimestamp P (PInt 1700000000) = Ret dt ->
     json_to_clf P line =
       Ret (Some
         ("127.0.0.1 - - [" ++ time_str_of P dt ++
          jq "] 'GET /index.html HTTP/1.1' 200 512 '-' 'TestAgent/1.0'"))).
Proof.
  split.
  - intros P line d req hdrs tsv dt ip m u p rf ua st sz rfs uas
      Hload Hlog Hts Hdt Hst Hsz Hreq Hip Hm Hu Hp Hhdr Hrf Hua.
    apply json_to_clf_emits.
    exists d, req, hdrs, dt, (PStr ua), (PStr rf). split.
    + unfold converts.
      rewrite (dict_get_found _ _ _ _ Hlog), (dict_get_found _ _ _ _ Hts),
        (dict_get_found _ _ _ _ Hreq), (dict_get_found _ _ _ _ Hhdr).
      repeat split; auto.
      * apply (first_header_first _ _ _ _ Hua).
      * apply (first_header_first _ _ _ _ Hrf).
    + rewrite (dict_get_found _ _ _ _ Hip), (dict_get_found _ _ _ _ Hm),
        (dict_get_found _ _ _ _ Hu), (dict_get_found _ _ _ _ Hp),
        (dict_get_found _ _ _ _ Hst), (dict_get_found _ _ _ _ Hsz).
      unfold clf_format, clf_template, loopback_to_ipv4. simpl py_eq_str.
      destruct (String.eqb ip "::1"); reflexivity.
  - intros P line dt Hload Hdt.
    unfold json_to_clf, json_to_clf_try. rewrite Hload.
    cbn -[time_str_of fromtimestamp]. rewrite Hdt. reflexivity.
Qed.

Lemma full_record_line_witness :
  json_to_clf Sample.host Sample.full_line = Ret (Some Sample.full_out) /\
  json_to_clf Sample.host Sample.scenario_line =
    Ret (Some Sample.scenario_out).
Proof.
  split.
  - eapply (proj1 full_record_line) with
      (dt := mkdatetime 2023 11 14 22 13 20 500000 None)
      (ip := "203.0.113.9") (m := "POST") (u := "/api") (p := "HTTP/2.0")
      (rf := "https://example.org/") (ua := "curl/8.0")
      (st := 404) (sz := 17); reflexivity.
  - apply (proj2 full_record_line Sample.host Sample.scenario_line
             (mkdatetime 2023 11 14 22 13 20 0 None)); reflexivity.
Defined.












(** C8.  The format with the literal [+0000] is never the one emitted: on
    every [datetime] the first format yields a non-empty string, so the
    [or] of line 31 returns it; and on every timestamp value the converter
    accepts the emitted text differs from what the second format would
    give. *)
Theorem fallback_unreachable :
  (forall (P : Platform) (dt : datetime),
     str_truthy (strftime P dt "%d/%b/%Y:%H:%M:%S %z") = true /\
     strftime P dt "%d/%b/%Y:%H:%M:%S %z" <> EmptyString /\
     time_str_of P dt = strftime P dt "%d/%b/%Y:%H:%M:%S %z") /\
  (forall (P : Platform) (v : pyval) (dt : datetime),
     fromtimestamp P v = Ret dt ->
     time_str_of P dt <> strftime P dt "%d/%b/%Y:%H:%M:%S +0000").
Proof.
  split.
  - intros P dt. split; [apply primary_truthy |]. split.
    + apply str_truthy_nonempty, primary_truthy.
    + unfold time_str_of, str_or. now rewrite primary_truthy.
  - intros P v dt Hdt.
    destruct (fromtimestamp_naive _ _ _ Hdt) as [Hnaive _].
    rewrite time_str_of_primary, strftime_fallback, Hnaive.
    intros E. apply append_inj_l in E. discriminate E.
Qed.

Lemma fallback_unreachable_witness :
  fromtimestamp Sample.host (PInt 1700000000) =
    Ret (mkdatetime 2023 11 14 22 13 20 0 None) /\
  time_str_of Sample.host (mkdatetime 2023 11 14 22 13 20 0 None) <>
    strftime Sample.host (mkdatetime 2023 11 14 22 13 20 0 None)
             "%d/%b/%Y:%H:%M:%S +0000".
Proof.
  split; [reflexivity |].
  apply (proj2 fallback_unreachable Sample.host (PInt 1700000000)).
  reflexivity.
Defined.

Lemma clf_format_truthy (P : Platform) ip ts m u p st sz rf ua :
  str_truthy (clf_format P ip ts m u p st sz rf ua) = true.
Proof.
  unfold clf_format, clf_template. apply str_truthy_append_r. reflexivity.
Qed.

Lemma json_to_clf_truthy (P : Platform) (line out : string) :
  json_to_clf P line = Ret (Some out) -> str_truthy out = true.
Proof.
  intros H. apply json_to_clf_emits in H.
  destruct H as (d & req & hdrs & dt & ua & rf & _ & ->).
  apply clf_format_truthy.
Qed.

(** C9.  A present result of the converter is a non-empty string, since it
    holds the fixed text [ - - []; so the truth test of the driver passes on
    exactly the present results, and the driver prints what a driver
    testing for presence would print, on every input. *)
Theorem present_result_nonempty :
  (forall (P : Platform) (line out : string),
     json_to_clf P line = Ret (Some out) ->
     out <> EmptyString /\
     result_truthy (Some out) = true /\
     exists a b, out = a ++ " - - [" ++ b) /\
  (forall (P : Platform) (stdin : list string),
     main P stdin = main_present P stdin).
Proof.
  split.
  - intros P line out H.
    pose proof (json_to_clf_truthy P line out H) as T.
    split; [now apply str_truthy_nonempty |]. split; [exact T |].
    apply json_to_clf_emits in H.
    destruct H as (d & req & hdrs & dt & ua & rf & _ & ->).
    unfold clf_format, clf_template. eexists. eexists. reflexivity.
  - intros P stdin. induction stdin as [| line rest IH]; [reflexivity |].
    simpl. destruct (json_to_clf P (strip P line)) as [[s |] | e] eqn:E.
    + unfold result_truthy. rewrite (json_to_clf_truthy P _ s E), IH.
      reflexivity.
    + rewrite IH. now destruct (main_present P rest).
    + reflexivity.
Qed.

Lemma present_result_nonempty_witness :
  Sample.scenario_out <> EmptyString /\
  result_truthy (Some Sample.scenario_out) = true /\
  exists a b, Sample.scenario_out = a ++ " - - [" ++ b.
Proof.
  apply (proj1 present_result_nonempty Sample.host Sample.scenario_line).
  reflexivity.
Defined.




(** ** Further properties of the converter and of the driver *)

Lemma bind_raise_inv {A B : Type} (m : res A) (k : A -> res B) (e : exn) :
  (x <- m ;; k x) = Raise e ->
  m = Raise e \/ exists a, m = Ret a /\ k a = Raise e.
Proof.
  destruct m as [a | e']; simpl; intros H.
  - right. exists a. split; [reflexivity | exact H].
  - left. now inversion H.
Qed.

Lemma main_skip (P : Platform) (raw : string) (rest : list string) :
  json_to_clf P (strip P raw) = Ret None ->
  main P (raw :: rest) = main P rest.
Proof.
  intros H. simpl. rewrite H. simpl. now destruct (main P rest).
Qed.

Lemma main_raise (P : Platform) (raw : string) (rest : list string) e :
  json_to_clf P (strip P raw) = Raise e ->
  main P (raw :: rest) = ([], Some e).
Proof. intros H. simpl. now rewrite H. Qed.

Lemma main_emit (P : Platform) (raw : string) (rest : list string) s :
  json_to_clf P (strip P raw) = Ret (Some s) ->
  main P (raw :: rest) = (s :: fst (main P rest), snd (main P rest)).
Proof.
  intros H. simpl. rewrite H. unfold result_truthy.
  rewrite (json_to_clf_truthy P _ s H). now destruct (main P rest).
Qed.

(** X1.  A line on which the parser raises an exception the handler names
    (a [JSONDecodeError] on malformed or empty text, a [ValueError]) is
    passed over: the converter returns [None], and the driver goes on with
    the rest of the stream exactly as if the line were not there. *)
Theorem rejected_line_passed_over
    (P : Platform) (raw : string) (rest : list string) (e : exn) :
  loads P (strip P raw) = Raise e ->
  handled e = true ->
  json_to_clf P (strip P raw) = Ret None /\
  main P (raw :: rest) = main P rest.
Proof.
  intros Hload He.
  assert (E : json_to_clf P (strip P raw) = Ret None).
  { apply (handled_exception_skipped P _ e); [| exact He].
    unfold json_to_clf_try. now rewrite Hload. }
  split; [exact E | now apply main_skip].
Qed.

Lemma rejected_line_passed_over_witness :
  json_to_clf Edge.host (strip Edge.host Sample.newline) = Ret None /\
  main Edge.host [Sample.newline; Sample.scenario_line] =
    main Edge.host [Sample.scenario_line].
Proof.
  apply (rejected_line_passed_over Edge.host Sample.newline
           [Sample.scenario_line] JSONDecodeError); reflexivity.
Defined.

(** A value that passes the truth test was found under the key, so the
    second [get] returns it whatever its default. *)
Lemma dict_get_truthy d k dflt :
  py_truthy (dict_get d k PNone) = true ->
  dict_get d k dflt = dict_get d k PNone.
Proof.
  unfold dict_get. destruct (dict_lookup d k); [reflexivity | discriminate].
Qed.

Lemma first_header_dict hdrs name :
  first_header (PDict hdrs) name =
  if py_truthy (dict_get hdrs name PNone)
  then py_getitem0 (dict_get hdrs name PNone)
  else Ret (PStr "-").
Proof.
  unfold first_header. simpl.
  destruct (py_truthy (dict_get hdrs name PNone)) eqn:T; [| reflexivity].
  simpl. now rewrite (dict_get_truthy _ _ _ T).
Qed.

Lemma getitem0_truthy_raises (v : pyval) (e : exn) :
  py_truthy v = true -> py_getitem0 v = Raise e ->
  e = TypeError \/ e = KeyError.
Proof.
  destruct v as [ | b | z | f | s | l | d]; simpl; intros T H;
    try (inversion H; auto; fail).
  - destruct s; [discriminate T | discriminate H].
  - destruct l; [discriminate T | discriminate H].
Qed.

Lemma first_header_raises (headers : pyval) (name : string) (e : exn) :
  first_header headers name = Raise e ->
  e = AttributeError \/ e = TypeError \/ e = KeyError.
Proof.
  destruct headers as [ | | | | | | hdrs];
    try (unfold first_header; simpl; intros H; inversion H; auto; fail).
  rewrite first_header_dict.
  destruct (py_truthy (dict_get hdrs name PNone)) eqn:T; [| discriminate].
  intros H. right. exact (getitem0_truthy_raises _ _ T H).
Qed.

Lemma py_get_raises (o : pyval) (k : string) (dflt : pyval) (e : exn) :
  py_get o k dflt = Raise e -> e = AttributeError.
Proof. destruct o; simpl; intros H; now inversion H. Qed.

Lemma fromtimestamp_raises (P : Platform) (v : pyval) (e : exn) :
  fromtimestamp P v = Raise e ->
  e = TypeError \/ e = ValueError \/ exists t, localtime P t = Raise e.
Proof.
  assert (U : forall y mo d h mi s, utc_to_seconds y mo d h mi s = Raise e ->
              e = ValueError).
  { intros y mo d h mi s H. unfold utc_to_seconds in H.
    destruct (between 1 y 9999); now inversion H. }
  assert (Lo : forall t, local P t = Raise e ->
               e = ValueError \/ exists t, localtime P t = Raise e).
  { intros t H. unfold local in H.
    apply bind_raise_inv in H. destruct H as [H | [w [_ H]]].
    - right. now exists (TInt t).
    - left. eapply U, H. }
  assert (L : forall t, local_datetime P t = Raise e ->
              e = ValueError \/ exists t, localtime P t = Raise e).
  { intros t H. unfold local_datetime in H.
    apply bind_raise_inv in H. destruct H as [H | [w [_ H]]].
    { right. now exists t. }
    apply bind_raise_inv in H. destruct H as [H | [fold [_ H]]].
    - unfold fold_probe in H.
      apply bind_raise_inv in H. destruct H as [H | [rs [_ H]]].
      { left. eapply U, H. }
      apply bind_raise_inv in H. destruct H as [H | [ps [_ H]]].
      { eapply Lo, H. }
      destruct (rs - ps - max_fold_seconds <? 0); [| discriminate H].
      apply bind_raise_inv in H. destruct H as [H | [ps' [_ H]]].
      + eapply Lo, H.
      + discriminate H.
    - destruct (valid_datetime (naive w)); inversion H. now left. }
  destruct v; simpl; intros H;
    try (left; now inversion H); right; eapply L; exact H.
Qed.

(** X2.  The only exceptions that leave the converter are [AttributeError]
    and [TypeError], besides what the parser or the local-time conversion of
    the host raise themselves outside the three handled classes.  In
    particular no [IndexError] comes from the two [[0]] subscripts, which
    the truth test guards, and none of [JSONDecodeError], [KeyError] and
    [ValueError] ever reaches the driver. *)
Theorem escaping_exceptions (P : Platform) (line : string) (e : exn) :
  json_to_clf P line = Raise e ->
  handled e = false /\
  (loads P line = Raise e \/
   (exists t, localtime P t = Raise e) \/
   e = AttributeError \/ e = TypeError).
Proof.
  intros H. apply json_to_clf_raises in H. destruct H as [H Hh].
  split; [exact Hh |].
  unfold json_to_clf_try in H.
  apply bind_raise_inv in H. destruct H as [H | [data [_ H]]]; [now left |].
  right.
  apply bind_raise_inv in H. destruct H as [H | [logger [_ H]]].
  { apply py_get_raises in H. auto. }
  destruct (negb (py_eq_str logger "http.log.access.log0"));
    [discriminate H |].
  apply bind_raise_inv in H. destruct H as [H | [request [_ H]]].
  { apply py_get_raises in H. auto. }
  apply bind_raise_inv in H. destruct H as [H | [remote_ip [_ H]]].
  { apply py_get_raises in H. auto. }
  apply bind_raise_inv in H. destruct H as [H | [timestamp [_ H]]].
  { apply py_get_raises in H. auto. }
  apply bind_raise_inv in H. destruct H as [H | [dt [_ H]]].
  { apply fromtimestamp_raises in H.
    destruct H as [-> | [-> | H]]; [auto | discriminate Hh | auto]. }
  apply bind_raise_inv in H. destruct H as [H | [method [_ H]]].
  { apply py_get_raises in H. auto. }
  apply bind_raise_inv in H. destruct H as [H | [uri [_ H]]].
  { apply py_get_raises in H. auto. }
  apply bind_raise_inv in H. destruct H as [H | [proto [_ H]]].
  { apply py_get_raises in H. auto. }
  apply bind_raise_inv in H. destruct H as [H | [status [_ H]]].
  { apply py_get_raises in H. auto. }
  apply bind_raise_inv in H. destruct H as [H | [size [_ H]]].
  { apply py_get_raises in H. auto. }
  apply bind_raise_inv in H. destruct H as [H | [headers [_ H]]].
  { apply py_get_raises in H. auto. }
  apply bind_raise_inv in H. destruct H as [H | [user_agent [_ H]]].
  { apply first_header_raises in H.
    destruct H as [-> | [-> | ->]]; [auto | auto | discriminate Hh]. }
  apply bind_raise_inv in H. destruct H as [H | [referer [_ H]]].
  { apply first_header_raises in H.
    destruct H as [-> | [-> | ->]]; [auto | auto | discriminate Hh]. }
  discriminate H.
Qed.

Lemma escaping_exceptions_witness :
  handled TypeError = false /\
  (loads Edge.host Edge.number_header_line = Raise TypeError \/
   (exists t, localtime Edge.host t = Raise TypeError) \/
   TypeError = AttributeError \/ TypeError = TypeError).
Proof.
  apply (escaping_exceptions Edge.host Edge.number_header_line TypeError).
  reflexivity.
Defined.

(** On an access record whose [request] is an object, what is left of the
    [try] block: the timestamp and the two headers. *)
Lemma json_to_clf_try_access (P : Platform) (line : string)
    (d req : list (string * pyval)) :
  loads P line = Ret (PDict d) ->
  dict_lookup d "logger" = Some (PStr "http.log.access.log0") ->
  dict_get d "request" (PDict []) = PDict req ->
  json_to_clf_try P line =
  (dt <- fromtimestamp P (dict_get d "ts" (PInt 0)) ;;
   user_agent <-
     first_header (dict_get req "headers" (PDict [])) "User-Agent" ;;
   referer <- first_header (dict_get req "headers" (PDict [])) "Referer" ;;
   Ret (Some (clf_format P
                (loopback_to_ipv4 (dict_get req "remote_ip" (PStr "-")))
                (time_str_of P dt)
                (dict_get req "method" (PStr "-"))
                (dict_get req "uri" (PStr "-"))
                (dict_get req "proto" (PStr "-"))
                (dict_get d "status" (PInt 0))
                (dict_get d "size" (PInt 0))
                referer user_agent))).
Proof.
  intros Hload Hlog Hreq.
  unfold json_to_clf_try. rewrite Hload. simpl.
  rewrite (dict_get_found _ _ _ _ Hlog). simpl.
  rewrite Hreq. reflexivity.
Qed.

Lemma year_out_of_range_invalid (w : walltime) :
  ~ 1 <= w_year w <= 9999 -> valid_datetime (naive w) = false.
Proof.
  intros H. unfold valid_datetime.
  destruct (between 1 (year (naive w)) 9999) eqn:B; [| reflexivity].
  apply between_true in B. now elim H.
Qed.

(** X3.  A timestamp that cannot be a [datetime] does not stop the stream:
    when the host places an integer [ts] (or the default 0) in a year
    outside 1 to 9999, and when the host raises [ValueError] on a float
    [ts] (as it does on NaN), the line is skipped with [None]. *)
Theorem unrepresentable_time_skipped :
  (forall (P : Platform) (line : string) (d req : list (string * pyval))
          (z : Z) (w : walltime),
     loads P line = Ret (PDict d) ->
     dict_lookup d "logger" = Some (PStr "http.log.access.log0") ->
     dict_get d "request" (PDict []) = PDict req ->
     dict_get d "ts" (PInt 0) = PInt z ->
     localtime P (TInt z) = Ret w ->
     ~ 1 <= w_year w <= 9999 ->
     json_to_clf P line = Ret None) /\
  (forall (P : Platform) (line : string) (d req : list (string * pyval))
          (f : spec_float),
     loads P line = Ret (PDict d) ->
     dict_lookup d "logger" = Some (PStr "http.log.access.log0") ->
     dict_get d "request" (PDict []) = PDict req ->
     dict_lookup d "ts" = Some (PFloat f) ->
     localtime P (TFloat f) = Raise ValueError ->
     json_to_clf P line = Ret None).
Proof.
  split.
  - intros P line d req z w Hload Hlog Hreq Hts Hw Hy.
    apply (handled_exception_skipped P line ValueError); [| reflexivity].
    rewrite (json_to_clf_try_access P line d req Hload Hlog Hreq), Hts.
    simpl. now rewrite (local_datetime_year_out_of_range P _ w Hw Hy).
  - intros P line d req f Hload Hlog Hreq Hts Hf.
    apply (handled_exception_skipped P line ValueError); [| reflexivity].
    rewrite (json_to_clf_try_access P line d req Hload Hlog Hreq).
    rewrite (dict_get_found _ _ _ _ Hts). simpl.
    unfold local_datetime. now rewrite Hf.
Qed.

Lemma unrepresentable_time_skipped_witness :
  json_to_clf Edge.host Edge.far_future_line = Ret None /\
  json_to_clf Edge.host Edge.nan_ts_line = Ret None.
Proof.
  split.
  - eapply (proj1 unrepresentable_time_skipped Edge.host Edge.far_future_line)
      with (z := 1000000000000)
           (w := mkwalltime 33658 9 27 1 46 40 0);
      try reflexivity.
    simpl. lia.
  - eapply (proj2 unrepresentable_time_skipped Edge.host Edge.nan_ts_line)
      with (f := S754_nan); reflexivity.
Defined.

(** X4.  An object stored under a header key makes the line vanish without
    a trace: the object passes the truth test, [[0]] on it raises
    [KeyError], and the handler turns that into [None].  This holds for
    [User-Agent], and for [Referer] once [User-Agent] has been read. *)
Theorem object_header_skipped :
  (forall (P : Platform) (line : string) (d req hdrs : list (string * pyval))
          (dt : datetime) kv rest,
     loads P line = Ret (PDict d) ->
     dict_lookup d "logger" = Some (PStr "http.log.access.log0") ->
     dict_get d "request" (PDict []) = PDict req ->
     fromtimestamp P (dict_get d "ts" (PInt 0)) = Ret dt ->
     dict_get req "headers" (PDict []) = PDict hdrs ->
     dict_lookup hdrs "User-Agent" = Some (PDict (kv :: rest)) ->
     json_to_clf P line = Ret None) /\
  (forall (P : Platform) (line : string) (d req hdrs : list (string * pyval))
          (dt : datetime) (ua : pyval) kv rest,
     loads P line = Ret (PDict d) ->
     dict_lookup d "logger" = Some (PStr "http.log.access.log0") ->
     dict_get d "request" (PDict []) = PDict req ->
     fromtimestamp P (dict_get d "ts" (PInt 0)) = Ret dt ->
     dict_get req "headers" (PDict []) = PDict hdrs ->
     first_header (PDict hdrs) "User-Agent" = Ret ua ->
     dict_lookup hdrs "Referer" = Some (PDict (kv :: rest)) ->
     json_to_clf P line = Ret None).
Proof.
  split.
  - intros P line d req hdrs dt kv rest Hload Hlog Hreq Hdt Hhdr Hua.
    apply (handled_exception_skipped P line KeyError); [| reflexivity].
    rewrite (json_to_clf_try_access P line d req Hload Hlog Hreq).
    rewrite Hdt, Hhdr. simpl bind at 1.
    rewrite first_header_dict, (dict_get_found _ _ _ _ Hua). reflexivity.
  - intros P line d req hdrs dt ua kv rest Hload Hlog Hreq Hdt Hhdr Hua Hrf.
    apply (handled_exception_skipped P line KeyError); [| reflexivity].
    rewrite (json_to_clf_try_access P line d req Hload Hlog Hreq).
    rewrite Hdt, Hhdr. simpl bind at 1. rewrite Hua. simpl bind at 1.
    rewrite first_header_dict, (dict_get_found _ _ _ _ Hrf). reflexivity.
Qed.

Lemma object_header_skipped_witness :
  json_to_clf Edge.host Edge.dict_header_line = Ret None /\
  json_to_clf Edge.host Edge.dict_referer_line = Ret None.
Proof.
  split.
  - eapply (proj1 object_header_skipped Edge.host Edge.dict_header_line)
      with (dt := mkdatetime 1970 1 1 0 0 0 0 None); reflexivity.
  - eapply (proj2 object_header_skipped Edge.host Edge.dict_referer_line)
      with (dt := mkdatetime 1970 1 1 0 0 0 0 None) (ua := PStr "a");
      reflexivity.
Defined.

Lemma first_header_falsy hdrs name x :
  dict_lookup hdrs name = Some x -> py_truthy x = false ->
  first_header (PDict hdrs) name = Ret (PStr "-").
Proof.
  intros E T. rewrite first_header_dict, (dict_get_found _ _ _ _ E).
  now rewrite T.
Qed.

(** X5.  In every line the converter returns, a header whose stored value
    fails the truth test is written as [-]: not only the empty list but
    also the empty string, [null], [false], the numbers 0 and 0.0, and the
    empty object. *)
Theorem falsy_header_defaults (P : Platform) (line out : string) :
  json_to_clf P line = Ret (Some out) ->
  exists d req hdrs ip ts m u p st sz rf ua,
    loads P line = Ret (PDict d) /\
    dict_get d "request" (PDict []) = PDict req /\
    dict_get req "headers" (PDict []) = PDict hdrs /\
    out = clf_template ip ts m u p st sz rf ua /\
    (forall x, dict_lookup hdrs "User-Agent" = Some x ->
               py_truthy x = false -> ua = "-") /\
    (forall x, dict_lookup hdrs "Referer" = Some x ->
               py_truthy x = false -> rf = "-").
Proof.
  intros H. apply json_to_clf_emits in H.
  destruct H as (d & req & hdrs & dt & ua & rf & C & ->).
  destruct C as (Hload & _ & Hreq & _ & Hhdr & Hua & Hrf).
  exists d, req, hdrs. do 9 eexists.
  split; [exact Hload |]. split; [exact Hreq |]. split; [exact Hhdr |].
  split; [reflexivity |]. split.
  - intros x E T. rewrite (first_header_falsy _ _ _ E T) in Hua.
    now inversion Hua.
  - intros x E T. rewrite (first_header_falsy _ _ _ E T) in Hrf.
    now inversion Hrf.
Qed.

Lemma falsy_header_defaults_witness :
  exists d req hdrs ip ts m u p st sz rf ua,
    loads Edge.host Edge.string_header_line = Ret (PDict d) /\
    dict_get d "request" (PDict []) = PDict req /\
    dict_get req "headers" (PDict []) = PDict hdrs /\
    Edge.string_header_out = clf_template ip ts m u p st sz rf ua /\
    (forall x, dict_lookup hdrs "User-Agent" = Some x ->
               py_truthy x = false -> ua = "-") /\
    (forall x, dict_lookup hdrs "Referer" = Some x ->
               py_truthy x = false -> rf = "-").
Proof.
  apply (falsy_header_defaults Edge.host Edge.string_header_line).
  reflexivity.
Defined.

Lemma first_header_string hdrs name c s :
  dict_lookup hdrs name = Some (PStr (String c s)) ->
  first_header (PDict hdrs) name =
  Ret (PStr (substring 0 (utf8_width c) (String c s))).
Proof.
  intros E. rewrite first_header_dict, (dict_get_found _ _ _ _ E).
  reflexivity.
Qed.

Lemma substring_one c s : substring 0 1 (String c s) = String c EmptyString.
Proof. simpl. now destruct s. Qed.

(** X6.  In every line the converter returns, a header stored as a plain
    string instead of a list of strings contributes its first character
    only (the bytes of its first UTF-8 sequence; one byte when the string
    starts with an ASCII character): [[0]] indexes the string. *)
Theorem string_header_first_character (P : Platform) (line out : string) :
  json_to_clf P line = Ret (Some out) ->
  exists d req hdrs ip ts m u p st sz rf ua,
    loads P line = Ret (PDict d) /\
    dict_get d "request" (PDict []) = PDict req /\
    dict_get req "headers" (PDict []) = PDict hdrs /\
    out = clf_template ip ts m u p st sz rf ua /\
    (forall c s, dict_lookup hdrs "User-Agent" = Some (PStr (String c s)) ->
       ua = substring 0 (utf8_width c) (String c s) /\
       (utf8_width c = 1%nat -> ua = String c EmptyString)) /\
    (forall c s, dict_lookup hdrs "Referer" = Some (PStr (String c s)) ->
       rf = substring 0 (utf8_width c) (String c s) /\
       (utf8_width c = 1%nat -> rf = String c EmptyString)).
Proof.
  intros H. apply json_to_clf_emits in H.
  destruct H as (d & req & hdrs & dt & ua & rf & C & ->).
  destruct C as (Hload & _ & Hreq & _ & Hhdr & Hua & Hrf).
  exists d, req, hdrs. do 9 eexists.
  split; [exact Hload |]. split; [exact Hreq |]. split; [exact Hhdr |].
  split; [reflexivity |]. split.
  - intros c s E. rewrite (first_header_string _ _ _ _ E) in Hua.
    inversion Hua; subst ua. split; [reflexivity |].
    intros W. simpl py_str. rewrite W. apply substring_one.
  - intros c s E. rewrite (first_header_string _ _ _ _ E) in Hrf.
    inversion Hrf; subst rf. split; [reflexivity |].
    intros W. simpl py_str. rewrite W. apply substring_one.
Qed.

Lemma string_header_first_character_witness :
  exists d req hdrs ip ts m u p st sz rf ua,
    loads Edge.host Edge.string_header_line = Ret (PDict d) /\
    dict_get d "request" (PDict []) = PDict req /\
    dict_get req "headers" (PDict []) = PDict hdrs /\
    Edge.string_header_out = clf_template ip ts m u p st sz rf ua /\
    (forall c s, dict_lookup hdrs "User-Agent" = Some (PStr (String c s)) ->
       ua = substring 0 (utf8_width c) (String c s) /\
       (utf8_width c = 1%nat -> ua = String c EmptyString)) /\
    (forall c s, dict_lookup hdrs "Referer" = Some (PStr (String c s)) ->
       rf = substring 0 (utf8_width c) (String c s) /\
       (utf8_width c = 1%nat -> rf = String c EmptyString)).
Proof.
  apply (string_header_first_character Edge.host Edge.string_header_line).
  reflexivity.
Defined.

Lemma getitem0_unsubscriptable (x : pyval) :
  is_subscriptable x = false -> py_getitem0 x = Raise TypeError.
Proof. destruct x; simpl; intros H; try reflexivity; discriminate H. Qed.

(** X7.  A number other than zero, or [true], stored under [User-Agent]
    in the headers of an access record passes the truth test and cannot be
    indexed: [TypeError] leaves the converter and the driver stops at that
    line. *)
Theorem unsubscriptable_header_escapes
    (P : Platform) (line : string) (d req hdrs : list (string * pyval))
    (dt : datetime) (x : pyval) :
  loads P line = Ret (PDict d) ->
  dict_lookup d "logger" = Some (PStr "http.log.access.log0") ->
  dict_get d "request" (PDict []) = PDict req ->
  fromtimestamp P (dict_get d "ts" (PInt 0)) = Ret dt ->
  dict_get req "headers" (PDict []) = PDict hdrs ->
  dict_lookup hdrs "User-Agent" = Some x ->
  py_truthy x = true ->
  is_subscriptable x = false ->
  json_to_clf P line = Raise TypeError /\
  forall raw rest, strip P raw = line ->
                   main P (raw :: rest) = ([], Some TypeError).
Proof.
  intros Hload Hlog Hreq Hdt Hhdr Hua T S.
  assert (E : json_to_clf P line = Raise TypeError).
  { apply json_to_clf_raises. split; [| reflexivity].
    rewrite (json_to_clf_try_access P line d req Hload Hlog Hreq).
    rewrite Hdt, Hhdr. simpl bind at 1.
    rewrite first_header_dict, (dict_get_found _ _ _ _ Hua), T.
    now rewrite (getitem0_unsubscriptable x S). }
  split; [exact E |].
  intros raw rest <-. now apply main_raise.
Qed.

Lemma unsubscriptable_header_escapes_witness :
  json_to_clf Edge.host Edge.number_header_line = Raise TypeError /\
  forall raw rest, strip Edge.host raw = Edge.number_header_line ->
                   main Edge.host (raw :: rest) = ([], Some TypeError).
Proof.
  eapply (unsubscriptable_header_escapes Edge.host Edge.number_header_line)
    with (dt := mkdatetime 1970 1 1 0 0 0 0 None) (x := PInt 7);
    reflexivity.
Defined.

(** X8.  A key that is present with the value [null] is not a missing key:
    in every line the converter returns, [null] under [remote_ip],
    [method], [uri], [proto], [status] or [size] is written as the text
    [None], not as the default [-] or [0]. *)
Theorem null_is_not_missing (P : Platform) (line out : string) :
  json_to_clf P line = Ret (Some out) ->
  exists d req ip ts m u p st sz rf ua,
    loads P line = Ret (PDict d) /\
    dict_get d "request" (PDict []) = PDict req /\
    out = clf_template ip ts m u p st sz rf ua /\
    (dict_lookup req "remote_ip" = Some PNone -> ip = "None") /\
    (dict_lookup req "method" = Some PNone -> m = "None") /\
    (dict_lookup req "uri" = Some PNone -> u = "None") /\
    (dict_lookup req "proto" = Some PNone -> p = "None") /\
    (dict_lookup d "status" = Some PNone -> st = "None") /\
    (dict_lookup d "size" = Some PNone -> sz = "None").
Proof.
  intros H. apply json_to_clf_emits in H.
  destruct H as (d & req & hdrs & dt & ua & rf & C & ->).
  destruct C as (Hload & _ & Hreq & _).
  exists d, req. do 9 eexists.
  split; [exact Hload |]. split; [exact Hreq |]. split; [reflexivity |].
  repeat split; intros E; now rewrite (dict_get_found _ _ _ _ E).
Qed.

Lemma null_is_not_missing_witness :
  exists d req ip ts m u p st sz rf ua,
    loads Edge.host Edge.null_fields_line = Ret (PDict d) /\
    dict_get d "request" (PDict []) = PDict req /\
    Edge.null_fields_out = clf_template ip ts m u p st sz rf ua /\
    (dict_lookup req "remote_ip" = Some PNone -> ip = "None") /\
    (dict_lookup req "method" = Some PNone -> m = "None") /\
    (dict_lookup req "uri" = Some PNone -> u = "None") /\
    (dict_lookup req "proto" = Some PNone -> p = "None") /\
    (dict_lookup d "status" = Some PNone -> st = "None") /\
    (dict_lookup d "size" = Some PNone -> sz = "None").
Proof.
  apply (null_is_not_missing Edge.host Edge.null_fields_line).
  reflexivity.
Defined.

(** X9.  The defaults [{}] of [request] and of [headers] cover a missing
    key only.  On an access record whose [request] is present and is not an
    object ([null], a string, a list, a number), and on one whose request
    holds a [headers] that is not an object, [.get] raises
    [AttributeError], which leaves the converter. *)
Theorem non_object_request_escapes :
  (forall (P : Platform) (line : string) (d : list (string * pyval))
          (v : pyval),
     loads P line = Ret (PDict d) ->
     dict_lookup d "logger" = Some (PStr "http.log.access.log0") ->
     dict_lookup d "request" = Some v ->
     (forall req, v <> PDict req) ->
     json_to_clf P line = Raise AttributeError) /\
  (forall (P : Platform) (line : string) (d req : list (string * pyval))
          (dt : datetime) (v : pyval),
     loads P line = Ret (PDict d) ->
     dict_lookup d "logger" = Some (PStr "http.log.access.log0") ->
     dict_get d "request" (PDict []) = PDict req ->
     fromtimestamp P (dict_get d "ts" (PInt 0)) = Ret dt ->
     dict_lookup req "headers" = Some v ->
     (forall hdrs, v <> PDict hdrs) ->
     json_to_clf P line = Raise AttributeError).
Proof.
  split.
  - intros P line d v Hload Hlog Hreq Hv.
    apply json_to_clf_raises. split; [| reflexivity].
    unfold json_to_clf_try. rewrite Hload. simpl.
    rewrite (dict_get_found _ _ _ _ Hlog). simpl.
    rewrite (dict_get_found _ _ _ _ Hreq).
    destruct v; try reflexivity. now elim (Hv d0).
  - intros P line d req dt v Hload Hlog Hreq Hdt Hhdr Hv.
    apply json_to_clf_raises. split; [| reflexivity].
    rewrite (json_to_clf_try_access P line d req Hload Hlog Hreq).
    rewrite Hdt, (dict_get_found _ _ _ _ Hhdr). simpl bind at 1.
    destruct v; try reflexivity. now elim (Hv d0).
Qed.

Lemma non_object_request_escapes_witness :
  json_to_clf Edge.host Edge.null_request_line = Raise AttributeError /\
  json_to_clf Edge.host Edge.list_headers_line = Raise AttributeError.
Proof.
  split.
  - eapply (proj1 non_object_request_escapes Edge.host
              Edge.null_request_line) with (v := PNone);
      try reflexivity.
    intros req. discriminate.
  - eapply (proj2 non_object_request_escapes Edge.host
              Edge.list_headers_line)
      with (dt := mkdatetime 1970 1 1 0 0 0 0 None) (v := PList []);
      try reflexivity.
    intros hdrs. discriminate.
Defined.

(** X10.  A [ts] that is not a number (a string, [null], a list, an
    object) on an access record raises [TypeError] in [fromtimestamp]; the
    handler does not name it, so it leaves the converter and the driver
    stops at that line. *)
Theorem non_numeric_timestamp_stops_stream
    (P : Platform) (line : string) (d req : list (string * pyval))
    (tsv : pyval) :
  loads P line = Ret (PDict d) ->
  dict_lookup d "logger" = Some (PStr "http.log.access.log0") ->
  dict_get d "request" (PDict []) = PDict req ->
  dict_lookup d "ts" = Some tsv ->
  is_number tsv = false ->
  json_to_clf P line = Raise TypeError /\
  forall raw rest, strip P raw = line ->
                   main P (raw :: rest) = ([], Some TypeError).
Proof.
  intros Hload Hlog Hreq Hts Hn.
  assert (E : json_to_clf P line = Raise TypeError).
  { apply (non_numeric_ts_escapes P line d req tsv Hload Hlog Hreq Hts).
    destruct tsv; try reflexivity; discriminate Hn. }
  split; [exact E |].
  intros raw rest <-. now apply main_raise.
Qed.

Lemma non_numeric_timestamp_stops_stream_witness :
  json_to_clf Edge.host Edge.null_ts_line = Raise TypeError /\
  forall raw rest, strip Edge.host raw = Edge.null_ts_line ->
                   main Edge.host (raw :: rest) = ([], Some TypeError).
Proof.
  eapply (non_numeric_timestamp_stops_stream Edge.host Edge.null_ts_line)
    with (tsv := PNone); reflexivity.
Defined.

Lemma first_header_non_object (v : pyval) (name : string) :
  (forall hdrs, v <> PDict hdrs) ->
  first_header v name = Raise AttributeError.
Proof.
  intros H. destruct v; try reflexivity. now elim (H d).
Qed.

Lemma first_header_reads_agree (v v' : pyval) (name : string) :
  reads_agree ["User-Agent"; "Referer"] v v' ->
  In name ["User-Agent"; "Referer"] ->
  first_header v' name = first_header v name.
Proof.
  intros H Hn.
  destruct v as [ | | | | | | hs], v' as [ | | | | | | hs'];
    cbn [reads_agree] in H; try contradiction; try reflexivity.
  rewrite !first_header_dict. unfold dict_get. now rewrite (H name Hn).
Qed.

(** X11.  The converter reads five keys of the record, four keys of the
    request besides [headers], and two headers; everything else on the line
    is ignored.  Two records that agree on [logger], [ts], [status] and
    [size], whose requests (the default [{}] for a missing one) answer the
    four lookups alike, and whose headers (again [{}] for missing ones)
    answer the two lookups alike, get the same result from the converter,
    be it a line, [None] or an exception.  Requests or headers that are not
    objects count as alike: [.get] raises on both. *)
Theorem unused_keys_ignored
    (P : Platform) (line line' : string) (d d' : list (string * pyval)) :
  loads P line = Ret (PDict d) ->
  loads P line' = Ret (PDict d') ->
  (forall k, In k ["logger"; "ts"; "status"; "size"] ->
             dict_lookup d' k = dict_lookup d k) ->
  reads_agree ["remote_ip"; "method"; "uri"; "proto"]
              (dict_get d "request" (PDict []))
              (dict_get d' "request" (PDict [])) ->
  (forall req req',
     dict_get d "request" (PDict []) = PDict req ->
     dict_get d' "request" (PDict []) = PDict req' ->
     reads_agree ["User-Agent"; "Referer"]
                 (dict_get req "headers" (PDict []))
                 (dict_get req' "headers" (PDict []))) ->
  json_to_clf P line' = json_to_clf P line.
Proof.
  intros Hl Hl' Hd Hr Hh.
  assert (Gd : forall k dflt, In k ["logger"; "ts"; "status"; "size"] ->
                 dict_get d' k dflt = dict_get d k dflt).
  { intros k dflt Hk. unfold dict_get. now rewrite (Hd k Hk). }
  unfold json_to_clf. f_equal.
  unfold json_to_clf_try. rewrite Hl, Hl'.
  cbn [bind py_get].
  rewrite (Gd "logger") by (simpl; auto).
  destruct (negb (py_eq_str (dict_get d "logger" PNone)
                    "http.log.access.log0")); [reflexivity |].
  rewrite (Gd "ts"), (Gd "status"), (Gd "size") by (simpl; auto 6).
  destruct (dict_get d "request" (PDict [])) as [ | | | | | | req] eqn:R,
           (dict_get d' "request" (PDict [])) as [ | | | | | | req'] eqn:R';
    cbn [reads_agree] in Hr; try contradiction; try reflexivity.
  assert (Gr : forall k dflt, In k ["remote_ip"; "method"; "uri"; "proto"] ->
                 dict_get req' k dflt = dict_get req k dflt).
  { intros k dflt Hk. unfold dict_get. now rewrite (Hr k Hk). }
  specialize (Hh req req' eq_refl eq_refl).
  cbn [bind py_get].
  rewrite (Gr "remote_ip"), (Gr "method"), (Gr "uri"), (Gr "proto")
    by (simpl; auto 6).
  rewrite (first_header_reads_agree _ _ "User-Agent" Hh) by (simpl; auto).
  rewrite (first_header_reads_agree _ _ "Referer" Hh) by (simpl; auto).
  reflexivity.
Qed.

Lemma unused_keys_ignored_witness :
  json_to_clf Edge.host Edge.noisy_line =
    json_to_clf Edge.host Edge.plain_line /\
  json_to_clf Edge.host Edge.tagged_line =
    json_to_clf Edge.host Sample.bare_line /\
  json_to_clf Edge.host Edge.text_request_line =
    json_to_clf Edge.host Edge.null_request_line.
Proof.
  split; [| split].
  - eapply (unused_keys_ignored Edge.host Edge.plain_line Edge.noisy_line).
    + vm_compute. reflexivity.
    + vm_compute. reflexivity.
    + intros k [<- | [<- | [<- | [<- | []]]]]; reflexivity.
    + vm_compute. intros k [<- | [<- | [<- | [<- | []]]]]; reflexivity.
    + intros req req' E E'. vm_compute in E, E'.
      inversion E; inversion E'; subst req req'.
      vm_compute. intros k [<- | [<- | []]]; reflexivity.
  - eapply (unused_keys_ignored Edge.host Sample.bare_line Edge.tagged_line).
    + vm_compute. reflexivity.
    + vm_compute. reflexivity.
    + intros k [<- | [<- | [<- | [<- | []]]]]; reflexivity.
    + vm_compute. intros k Hk. reflexivity.
    + intros req req' E E'. vm_compute in E, E'.
      inversion E; inversion E'; subst req req'.
      vm_compute. intros k Hk. reflexivity.
  - eapply (unused_keys_ignored Edge.host Edge.null_request_line
              Edge.text_request_line).
    + vm_compute. reflexivity.
    + vm_compute. reflexivity.
    + intros k [<- | [<- | [<- | [<- | []]]]]; reflexivity.
    + vm_compute. exact I.
    + intros req req' E. vm_compute in E. discriminate E.
Defined.

(** X12.  Lines are converted one by one, in order, with nothing carried
    from one line to the next: the run on a stream followed by another
    prints the lines of the first run followed by the lines of the second,
    unless the first run ended in an exception, in which case the second
    stream is not read. *)
Theorem main_app (P : Platform) (xs ys : list string) :
  main P (xs ++ ys)%list =
  match snd (main P xs) with
  | Some e => main P xs
  | None => ((fst (main P xs) ++ fst (main P ys))%list, snd (main P ys))
  end.
Proof.
  induction xs as [| raw xs IH].
  - simpl. now destruct (main P ys).
  - destruct (json_to_clf P (strip P raw)) as [[s |] | e] eqn:E.
    + rewrite <- app_comm_cons.
      rewrite (main_emit P raw (xs ++ ys)%list s E),
        (main_emit P raw xs s E), IH.
      cbn [fst snd]. destruct (snd (main P xs)) eqn:Es; cbn [fst snd];
        rewrite ?Es; reflexivity.
    + rewrite <- app_comm_cons.
      now rewrite (main_skip P raw (xs ++ ys)%list E),
        (main_skip P raw xs E).
    + rewrite <- app_comm_cons.
      now rewrite (main_raise P raw (xs ++ ys)%list e E),
        (main_raise P raw xs e E).
Qed.



(** X14.  The f-string writes the fields as they are, with no escaping, so
    the line does not determine its fields: a space in the method moves the
    boundary between METHOD and URI, and a double quote in the referer moves
    the boundary between REFERER and USER_AGENT.  Different field values
    give the same line. *)
Theorem fields_not_escaped
    (P : Platform) (ip : pyval) (ts m a u : string)
    (p st sz : pyval) (r x y : string) :
  clf_format P ip ts (PStr (m ++ " " ++ a)) (PStr u) p st sz
             (PStr r) (PStr (x ++ dq ++ " " ++ dq ++ y)) =
  clf_format P ip ts (PStr m) (PStr (a ++ " " ++ u)) p st sz
             (PStr (r ++ dq ++ " " ++ dq ++ x)) (PStr y) /\
  m ++ " " ++ a <> m /\
  x ++ dq ++ " " ++ dq ++ y <> y.
Proof.
  split; [| split].
  - unfold clf_format, clf_template. cbn [py_str].
    rewrite !append_assoc. reflexivity.
  - intros E. apply (f_equal String.length) in E.
    rewrite length_append in E. simpl in E. lia.
  - intros E. apply (f_equal String.length) in E.
    rewrite !length_append in E. simpl in E. lia.
Qed.

Lemma time_str_ignores_microsecond (P : Platform) (dt dt' : datetime) :
  year dt' = year dt -> month dt' = month dt -> day dt' = day dt ->
  hour dt' = hour dt -> minute dt' = minute dt -> second dt' = second dt ->
  tzinfo dt' = tzinfo dt ->
  time_str_of P dt' = time_str_of P dt.
Proof.
  intros Hy Hmo Hd Hh Hmi Hs Hz.
  rewrite !time_str_of_primary. unfold clf_date.
  now rewrite Hy, Hmo, Hd, Hh, Hmi, Hs, Hz.
Qed.

(** X15.  The fraction of a second of [ts] never shows: two access records
    that differ only in [ts], with timestamps the host places in the same
    second of local time, are converted to the same line. *)
Theorem subsecond_not_written
    (P : Platform) (line line' : string)
    (d d' req : list (string * pyval)) (tsv tsv' : pyval)
    (dt dt' : datetime) :
  loads P line = Ret (PDict d) ->
  loads P line' = Ret (PDict d') ->
  (forall k, k <> "ts" -> dict_lookup d' k = dict_lookup d k) ->
  dict_lookup d "logger" = Some (PStr "http.log.access.log0") ->
  dict_get d "request" (PDict []) = PDict req ->
  dict_lookup d "ts" = Some tsv ->
  dict_lookup d' "ts" = Some tsv' ->
  fromtimestamp P tsv = Ret dt ->
  fromtimestamp P tsv' = Ret dt' ->
  year dt' = year dt -> month dt' = month dt -> day dt' = day dt ->
  hour dt' = hour dt -> minute dt' = minute dt -> second dt' = second dt ->
  json_to_clf P line' = json_to_clf P line.
Proof.
  intros Hl Hl' Hsame Hlog Hreq Hts Hts' Hdt Hdt' Hy Hmo Hd Hh Hmi Hs.
  assert (G : forall k dflt, k <> "ts" ->
                dict_get d' k dflt = dict_get d k dflt).
  { intros k dflt Hk. unfold dict_get. now rewrite (Hsame k Hk). }
  assert (Hlog' : dict_lookup d' "logger" =
                  Some (PStr "http.log.access.log0")).
  { rewrite Hsame by discriminate. exact Hlog. }
  assert (Hreq' : dict_get d' "request" (PDict []) = PDict req).
  { rewrite G by discriminate. exact Hreq. }
  assert (Hz : tzinfo dt' = tzinfo dt).
  { destruct (fromtimestamp_naive _ _ _ Hdt) as [-> _].
    now destruct (fromtimestamp_naive _ _ _ Hdt') as [-> _]. }
  unfold json_to_clf. f_equal.
  rewrite (json_to_clf_try_access P line d req Hl Hlog Hreq).
  rewrite (json_to_clf_try_access P line' d' req Hl' Hlog' Hreq').
  rewrite (dict_get_found _ _ _ _ Hts), (dict_get_found _ _ _ _ Hts').
  rewrite Hdt, Hdt'. cbn [bind].
  rewrite (time_str_ignores_microsecond P dt dt' Hy Hmo Hd Hh Hmi Hs Hz).
  rewrite !(G "status"), !(G "size") by discriminate. reflexivity.
Qed.

Lemma subsecond_not_written_witness :
  json_to_clf Edge.host Edge.quarter_line =
  json_to_clf Edge.host Sample.full_line.
Proof.
  eapply (subsecond_not_written Edge.host Sample.full_line Edge.quarter_line)
    with (dt := mkdatetime 2023 11 14 22 13 20 500000 None)
         (dt' := mkdatetime 2023 11 14 22 13 20 250000 None);
    try reflexivity.
  intros k Hk. cbn [dict_lookup].
  destruct (String.eqb_spec "logger" k); [reflexivity |].
  destruct (String.eqb_spec "ts" k); [now subst k; elim Hk | reflexivity].
Defined.

Lemma first_header_field hdrs name v :
  first_header (PDict hdrs) name = Ret v <-> header_field hdrs name v.
Proof.
  rewrite first_header_dict. unfold header_field, dict_get.
  destruct (dict_lookup hdrs name) as [x |]; simpl.
  - destruct (py_truthy x); [reflexivity |].
    split; [intros H; now inversion H | now intros ->].
  - split; [intros H; now inversion H | now intros ->].
Qed.

(** X16.  When a line is printed, and what it is.  The converter returns a
    line exactly when the text parses to an object whose [logger] is the
    access marker, whose [request] is an object or missing, whose [ts] (0
    when missing) the host converts to a [datetime], whose [headers] is an
    object or missing, and whose two headers can be read; the line is then
    the template filled with the [str] of the stored values or of their
    defaults, with the date followed by a space between the brackets. *)
Theorem line_emitted_iff (P : Platform) (line out : string) :
  json_to_clf P line = Ret (Some out) <->
  exists d req hdrs dt ua rf,
    loads P line = Ret (PDict d) /\
    dict_lookup d "logger" = Some (PStr "http.log.access.log0") /\
    dict_get d "request" (PDict []) = PDict req /\
    fromtimestamp P (dict_get d "ts" (PInt 0)) = Ret dt /\
    dict_get req "headers" (PDict []) = PDict hdrs /\
    header_field hdrs "User-Agent" ua /\
    header_field hdrs "Referer" rf /\
    out = clf_template
            (py_str P (loopback_to_ipv4 (dict_get req "remote_ip" (PStr "-"))))
            (clf_date P dt ++ " ")
            (py_str P (dict_get req "method" (PStr "-")))
            (py_str P (dict_get req "uri" (PStr "-")))
            (py_str P (dict_get req "proto" (PStr "-")))
            (py_str P (dict_get d "status" (PInt 0)))
            (py_str P (dict_get d "size" (PInt 0)))
            (py_str P rf) (py_str P ua).
Proof.
  rewrite json_to_clf_emits. unfold converts, clf_format. split.
  - intros (d & req & hdrs & dt & ua & rf &
            (Hload & Hacc & Hreq & Hdt & Hhdr & Hua & Hrf) & ->).
    exists d, req, hdrs, dt, ua, rf.
    apply py_eq_str_true in Hacc. unfold dict_get in Hacc.
    destruct (dict_lookup d "logger") as [v |] eqn:Hlog; [| discriminate].
    subst v. apply first_header_field in Hua, Hrf.
    destruct (fromtimestamp_naive _ _ _ Hdt) as [Hnaive _].
    rewrite time_str_of_primary, Hnaive.
    repeat split; auto.
  - intros (d & req & hdrs & dt & ua & rf &
            Hload & Hlog & Hreq & Hdt & Hhdr & Hua & Hrf & ->).
    exists d, req, hdrs, dt, ua, rf.
    apply first_header_field in Hua, Hrf.
    destruct (fromtimestamp_naive _ _ _ Hdt) as [Hnaive _].
    rewrite time_str_of_primary, Hnaive.
    rewrite (dict_get_found _ _ _ _ Hlog).
    repeat split; auto.
Qed.

Lemma line_emitted_iff_witness :
  json_to_clf Edge.host Edge.string_header_line =
    Ret (Some Edge.string_header_out).
Proof.
  apply (proj2 (line_emitted_iff Edge.host Edge.string_header_line
                  Edge.string_header_out)).
  exists [("logger", Sample.access);
          ("request",
           PDict [("headers",
                   PDict [("User-Agent", PStr "curl/8.0");
                          ("Referer", PInt 0)])])],
         [("headers",
           PDict [("User-Agent", PStr "curl/8.0"); ("Referer", PInt 0)])],
         [("User-Agent", PStr "curl/8.0"); ("Referer", PInt 0)],
         (mkdatetime 1970 1 1 0 0 0 0 None), (PStr "c"), (PStr "-").
  repeat split; reflexivity.
Defined.
